(** * Dataproc workflow builders (dags/utils/dataproc.py)

    A shallow embedding of [DataProcHelper], [_format_envvar] and the three
    sub-DAG builders [moz_dataproc_pyspark_runner], [moz_dataproc_jar_runner]
    and [moz_dataproc_scriptrunner].

    Python lists and dicts are mutable objects that the builders pass around
    by reference, so they live in an explicit object store and are named by
    their address.  Strings, numbers, booleans, tuples and [None] are
    immutable and are plain values.  Calls into the Airflow hooks are
    recorded in a trace, so that "before any external call" is a statement
    about that trace. *)

From stdpp Require Import base strings list gmap.

Open Scope string_scope.

(** ** Python strings *)

Module Py.

(** [sep.join(parts)] *)
Fixpoint join (sep : string) (parts : list string) : string :=
  match parts with
  | [] => ""
  | [p] => p
  | p :: rest => p +:+ sep +:+ join sep rest
  end.

(** ['{}'.format(v)] for a value that is a string or [None]. *)
Definition str (v : option string) : string :=
  match v with
  | Some s => s
  | None => "None"
  end.

(** Truthiness of a string: the empty string is false. *)
Definition truthy_str (s : string) : bool :=
  match s with
  | EmptyString => false
  | String _ _ => true
  end.

(** Truthiness of a value that is a string or [None]. *)
Definition truthy (v : option string) : bool :=
  match v with
  | Some s => truthy_str s
  | None => false
  end.

End Py.

(** ** The object store *)

(** Addresses of mutable objects. *)
Definition loc := nat.

(** The mutable containers the module handles: lists of strings, and dicts
    from strings to strings in insertion order. *)
Inductive PyObj :=
| PyList (items : list string)
| PyDict (items : list (string * string)).

(** Exceptions.  [AirflowException] is what the builders raise themselves;
    the hooks may raise anything. *)
Inductive Exn :=
| AirflowException (msg : string)
| AttributeError (msg : string)
| HookError (msg : string).

(** Calls that leave the process. *)
Inductive ExternalCall :=
| GcpConnectionLookup (gcp_conn_id : string)
| AwsCredentialLookup (aws_conn_id : string).

(** ** Operators and DAGs *)

(** Keyword arguments stored by [DataprocClusterCreateOperator]. *)
Record ClusterCreateArgs := {
  cc_cluster_name : option string;
  cc_gcp_conn_id : string;
  cc_service_account : option string;
  cc_project_id : option string;
  cc_storage_bucket : string;
  cc_num_workers : Z;
  cc_image_version : string;
  cc_properties : loc;
  cc_zone : string;
  cc_idle_delete_ttl : string;
  cc_auto_delete_ttl : string;
  cc_master_machine_type : string;
  cc_worker_machine_type : string;
  cc_num_preemptible_workers : Z;
  cc_optional_components : loc;
  cc_install_component_gateway : bool;
  cc_init_actions_uris : loc;
  cc_metadata : loc
}.

(** Keyword arguments stored by [DataprocClusterDeleteOperator]. *)
Record ClusterDeleteArgs := {
  cd_cluster_name : option string;
  cd_gcp_conn_id : string;
  cd_project_id : option string
}.

(** Keyword arguments stored by [DataProcPySparkOperator]. *)
Record PySparkArgs := {
  ps_job_name : option string;
  ps_cluster_name : string;
  ps_main : string;
  ps_arguments : option loc;
  ps_gcp_conn_id : string
}.

(** Keyword arguments stored by [DataProcSparkOperator]. *)
Record SparkArgs := {
  sp_cluster_name : string;
  sp_job_name : option string;
  sp_dataproc_spark_jars : loc;
  sp_main_class : string;
  sp_arguments : option loc;
  sp_gcp_conn_id : string
}.

(** Modelled from the spec: the operator classes.
    [DataprocClusterCreateOperator] is defined in
    operators/moz_dataproc_operator.py, the other three in Airflow; none of
    them is part of dataproc.py.  The spec calls their instances task
    descriptors, opaque units carrying the payload they were built from, so
    a constructor only stores its keyword arguments; a list or dict argument
    is stored as the reference that was passed. *)
Inductive Operator :=
| DataprocClusterCreateOperator (kw : ClusterCreateArgs)
| DataprocClusterDeleteOperator (kw : ClusterDeleteArgs)
| DataProcPySparkOperator (kw : PySparkArgs)
| DataProcSparkOperator (kw : SparkArgs).

(** A task: an operator instance with the ordering it declares. *)
Record Task := {
  task_id : string;
  operator : Operator;
  upstream_task_ids : gset string;
  downstream_task_ids : gset string
}.

(** [models.DAG]: its id, the [default_args] dict it was given and the
    tasks registered in it, by task id. *)
Record DAG := {
  dag_id : string;
  dag_default_args : option loc;
  task_dict : gmap string Task
}.

(** The state a call runs in: the object store, the DAG of the enclosing
    [with] block, and the external calls made so far. *)
Record World := {
  heap : list PyObj;
  context_dag : option DAG;
  calls : list ExternalCall
}.

(** ** Computations: state and exceptions *)

Definition M (A : Type) : Type := World → (Exn + A) * World.

Definition ret {A} (a : A) : M A := λ w, (inr a, w).

Definition raise {A} (e : Exn) : M A := λ w, (inl e, w).

Definition bind {A B} (c : M A) (k : A → M B) : M B :=
  λ w, match c w with
       | (inr a, w') => k a w'
       | (inl e, w') => (inl e, w')
       end.

Declare Scope py_scope.
Delimit Scope py_scope with py.
Notation "x <- c ;; k" := (bind c (λ x, k))
  (at level 100, c at next level, right associativity) : py_scope.
Notation "c ;;; k" := (bind c (λ _, k))
  (at level 100, right associativity) : py_scope.
Open Scope py_scope.

Definition set_heap (h : list PyObj) (w : World) : World :=
  {| heap := h; context_dag := context_dag w; calls := calls w |}.

Definition set_context_dag (d : option DAG) (w : World) : World :=
  {| heap := heap w; context_dag := d; calls := calls w |}.

Definition log_call (c : ExternalCall) (w : World) : World :=
  {| heap := heap w; context_dag := context_dag w; calls := calls w ++ [c] |}.

(** A list or dict display: a new object at a new address. *)
Definition alloc (o : PyObj) : M loc :=
  λ w, (inr (length (heap w)), set_heap (heap w ++ [o]) w).

(** [d[k] = v] on the items of a dict: an existing key keeps its place. *)
Fixpoint dict_set (k v : string) (items : list (string * string))
  : list (string * string) :=
  match items with
  | [] => [(k, v)]
  | (k', v') :: rest =>
      if decide (k' = k) then (k, v) :: rest
      else (k', v') :: dict_set k v rest
  end.

(** [d[k] = v] on the dict at address [l]. *)
Definition setitem (l : loc) (k v : string) : M unit :=
  λ w, match heap w !! l with
       | Some (PyDict items) =>
           (inr (), set_heap (<[l := PyDict (dict_set k v items)]> (heap w)) w)
       | _ => (inl (AttributeError "__setitem__"), w)
       end.

(** [xs += ys] on the list at address [l]: extends it in place. *)
Definition iadd (l : loc) (ys : list string) : M unit :=
  λ w, match heap w !! l with
       | Some (PyList xs) =>
           (inr (), set_heap (<[l := PyList (xs ++ ys)]> (heap w)) w)
       | _ => (inl (AttributeError "__iadd__"), w)
       end.

(** ** Airflow: hooks, the DAG context, task registration and [>>] *)

(** What [AwsHook.get_credentials] returns: a named tuple of three fields,
    each of which may be [None]. *)
Record ReadOnlyCredentials := {
  access_key : option string;
  secret_key : option string;
  token : option string
}.

(** Iterating the named tuple. *)
Definition credentials_fields (c : ReadOnlyCredentials) : list (option string) :=
  [access_key c; secret_key c; token c].

(** A constructed [GoogleCloudBaseHook]. *)
Record GcpHook := { project_id : option string }.

(** The two hooks, as the connection store answers them. *)
Record Hooks := {
  gcp_connection : string → Exn + GcpHook;
  aws_credentials : string → Exn + ReadOnlyCredentials
}.

(** [DAG.add_task] (Airflow 1.10.2): a task id already present keeps the
    task it has. *)
Definition add_task (t : Task) (d : DAG) : DAG :=
  match task_dict d !! task_id t with
  | Some _ => d
  | None => {| dag_id := dag_id d;
               dag_default_args := dag_default_args d;
               task_dict := <[task_id t := t]> (task_dict d) |}
  end.

(** Constructing an operator: inside a [with DAG] block the new task is
    registered in that DAG. *)
Definition new_task (tid : string) (op : Operator) : M Task :=
  λ w, let t := {| task_id := tid; operator := op;
                   upstream_task_ids := ∅; downstream_task_ids := ∅ |} in
       (inr t, set_context_dag (add_task t <$> context_dag w) w).

Definition add_downstream (tid : string) (t : Task) : Task :=
  {| task_id := task_id t; operator := operator t;
     upstream_task_ids := upstream_task_ids t;
     downstream_task_ids := {[tid]} ∪ downstream_task_ids t |}.

Definition add_upstream (tid : string) (t : Task) : Task :=
  {| task_id := task_id t; operator := operator t;
     upstream_task_ids := {[tid]} ∪ upstream_task_ids t;
     downstream_task_ids := downstream_task_ids t |}.

Definition set_relation (a b : string) (d : DAG) : DAG :=
  {| dag_id := dag_id d;
     dag_default_args := dag_default_args d;
     task_dict := alter (add_upstream a) b (alter (add_downstream b) a (task_dict d)) |}.

(** [a >> b]: [a.set_downstream(b)], and the value is [b].  Tasks are the
    entries of the enclosing DAG, found by their id; relations between tasks
    that have no DAG are refused. *)
Definition rshift (a b : Task) : M Task :=
  λ w, match context_dag w with
       | Some d =>
           (inr b, set_context_dag (Some (set_relation (task_id a) (task_id b) d)) w)
       | None =>
           (inl (AirflowException
                   "Tried to set relationships between tasks that don't have DAGs yet"), w)
       end.

(** The DAG bound by [as dag]. *)
Definition current_dag : M DAG :=
  λ w, match context_dag w with
       | Some d => (inr d, w)
       | None => (inl (AirflowException "no DAG"), w)
       end.

(** [with models.DAG(name, default_args=default_args) as dag: body].  The
    new DAG is the context of [body]; leaving the block, also by [return]
    or by an exception, restores the previous context. *)
Definition with_DAG {A} (name : string) (default_args : option loc) (body : M A) : M A :=
  λ w, let d := {| dag_id := name; dag_default_args := default_args; task_dict := ∅ |} in
       let '(r, w') := body (set_context_dag (Some d) w) in
       (r, set_context_dag (context_dag w) w').

(** [for x in xs: body(x)] *)
Fixpoint for_ {A} (xs : list A) (body : A → M unit) : M unit :=
  match xs with
  | [] => ret ()
  | x :: rest => body x ;;; for_ rest body
  end.

(** ** dataproc.py *)

(** The cluster keyword arguments, which [DataProcHelper.__init__] and the
    three builders share by name. *)
Record ClusterKwargs := {
  cluster_name : option string;
  num_workers : Z;
  image_version : string;
  zone : string;
  idle_delete_ttl : string;
  auto_delete_ttl : string;
  master_machine_type : string;
  worker_machine_type : string;
  num_preemptible_workers : Z;
  service_account : option string;
  artifact_bucket : string;
  optional_components : loc;
  install_component_gateway : bool;
  aws_conn_id : option string;
  gcp_conn_id : string
}.

(** A [DataProcHelper] instance: [__init__] stores every keyword argument
    under its own name, and the hook as [connection]. *)
Record DataProcHelper := {
  self : ClusterKwargs;
  connection : GcpHook
}.

(** The keyword arguments of a builder that are not specific to its kind of
    job. *)
Record RunnerKwargs := {
  parent_dag_name : option string;
  dag_name : string;
  default_args : option loc;
  job_name : option string;
  cluster : ClusterKwargs
}.

(** The default [optional_components=['ANACONDA']] of the four signatures:
    each is one list, created when its [def] is executed. *)
Record ModuleDefaults := {
  helper_optional_components : loc;
  pyspark_optional_components : loc;
  jar_optional_components : loc;
  script_optional_components : loc
}.

(** Executing the module: the four [def]s, in source order. *)
Definition import_module : M ModuleDefaults :=
  l1 <- alloc (PyList ["ANACONDA"]) ;;
  l2 <- alloc (PyList ["ANACONDA"]) ;;
  l3 <- alloc (PyList ["ANACONDA"]) ;;
  l4 <- alloc (PyList ["ANACONDA"]) ;;
  ret {| helper_optional_components := l1;
         pyspark_optional_components := l2;
         jar_optional_components := l3;
         script_optional_components := l4 |}.

(** The cluster defaults of [DataProcHelper.__init__], [moz_dataproc_jar_runner]
    and [moz_dataproc_scriptrunner], given the default list of the signature. *)
Definition cluster_defaults (components : loc) : ClusterKwargs :=
  {| cluster_name := None;
     num_workers := 2;
     image_version := "1.4";
     zone := "us-west1-b";
     idle_delete_ttl := "14400";
     auto_delete_ttl := "28800";
     master_machine_type := "n1-standard-8";
     worker_machine_type := "n1-standard-4";
     num_preemptible_workers := 0;
     service_account := None;
     artifact_bucket := "moz-fx-data-prod-airflow-dataproc-artifacts";
     optional_components := components;
     install_component_gateway := true;
     aws_conn_id := None;
     gcp_conn_id := "google_cloud_airflow_dataproc" |}.

(** [moz_dataproc_pyspark_runner] has shorter time-to-live defaults. *)
Definition pyspark_cluster_defaults (components : loc) : ClusterKwargs :=
  {| cluster_name := None;
     num_workers := 2;
     image_version := "1.4";
     zone := "us-west1-b";
     idle_delete_ttl := "10800";
     auto_delete_ttl := "21600";
     master_machine_type := "n1-standard-8";
     worker_machine_type := "n1-standard-4";
     num_preemptible_workers := 0;
     service_account := None;
     artifact_bucket := "moz-fx-data-prod-airflow-dataproc-artifacts";
     optional_components := components;
     install_component_gateway := true;
     aws_conn_id := None;
     gcp_conn_id := "google_cloud_airflow_dataproc" |}.

Definition helper_defaults (m : ModuleDefaults) : ClusterKwargs :=
  cluster_defaults (helper_optional_components m).

Definition pyspark_defaults (m : ModuleDefaults) : RunnerKwargs :=
  {| parent_dag_name := None;
     dag_name := "run_pyspark_on_dataproc";
     default_args := None;
     job_name := None;
     cluster := pyspark_cluster_defaults (pyspark_optional_components m) |}.

Definition jar_defaults (m : ModuleDefaults) : RunnerKwargs :=
  {| parent_dag_name := None;
     dag_name := "run_script_on_dataproc";
     default_args := None;
     job_name := None;
     cluster := cluster_defaults (jar_optional_components m) |}.

Definition script_defaults (m : ModuleDefaults) : RunnerKwargs :=
  {| parent_dag_name := None;
     dag_name := "run_script_on_dataproc";
     default_args := None;
     job_name := None;
     cluster := cluster_defaults (script_optional_components m) |}.

(** ['{}={}'.format(k, v)] for every item, joined by one space. *)
Definition format_items (items : list (string * string)) : string :=
  Py.join " " (map (λ kv, fst kv +:+ "=" +:+ snd kv) items).

(** [_format_envvar(env)]: [(env or {}).items()] is empty for [None] and for
    an empty container; a non-empty list has no [items]. *)
Definition _format_envvar (env : option loc) : M string :=
  match env with
  | None => ret (format_items [])
  | Some l =>
      λ w, match heap w !! l with
           | Some (PyDict items) => (inr (format_items items), w)
           | Some (PyList []) => (inr (format_items []), w)
           | _ => (inl (AttributeError "items"), w)
           end
  end.

Section Dataproc.

Context (hooks : Hooks).

(** [GoogleCloudBaseHook(gcp_conn_id=...)]: reads the connection. *)
Definition GoogleCloudBaseHook (conn_id : string) : M GcpHook :=
  λ w, (gcp_connection hooks conn_id, log_call (GcpConnectionLookup conn_id) w).

(** [AwsHook(aws_conn_id).get_credentials()] *)
Definition AwsHook_get_credentials (conn_id : string) : M ReadOnlyCredentials :=
  λ w, (aws_credentials hooks conn_id, log_call (AwsCredentialLookup conn_id) w).

(** [DataProcHelper.__init__] *)
Definition DataProcHelper__init__ (kw : ClusterKwargs) : M DataProcHelper :=
  hook <- GoogleCloudBaseHook (gcp_conn_id kw) ;;
  ret {| self := kw; connection := hook |}.

(** [DataProcHelper.create_cluster] *)
Definition create_cluster (helper : DataProcHelper) : M Task :=
  properties <- alloc (PyDict []) ;;
  (match aws_conn_id (self helper) with
   | Some conn_id =>
       if Py.truthy_str conn_id then
         credentials <- AwsHook_get_credentials conn_id ;;
         for_ (zip ["access.key"; "secret.key"; "session.token"]
                   (credentials_fields credentials))
              (λ kv, match snd kv with
                     | Some value => setitem properties ("core:fs.s3a." +:+ fst kv) value
                     | None => ret ()
                     end)
       else ret ()
   | None => ret ()
   end) ;;;
  init_actions_uris <-
    alloc (PyList ["gs://" +:+ artifact_bucket (self helper)
                   +:+ "/bootstrap/dataproc_init.sh"]) ;;
  metadata <-
    alloc (PyDict [("gcs-connector-version", "1.9.16");
                   ("bigquery-connector-version", "0.13.6")]) ;;
  new_task "create_dataproc_cluster"
    (DataprocClusterCreateOperator
       {| cc_cluster_name := cluster_name (self helper);
          cc_gcp_conn_id := gcp_conn_id (self helper);
          cc_service_account := service_account (self helper);
          cc_project_id := project_id (connection helper);
          cc_storage_bucket := "moz-fx-data-prod-dataproc-scratch";
          cc_num_workers := num_workers (self helper);
          cc_image_version := image_version (self helper);
          cc_properties := properties;
          cc_zone := zone (self helper);
          cc_idle_delete_ttl := idle_delete_ttl (self helper);
          cc_auto_delete_ttl := auto_delete_ttl (self helper);
          cc_master_machine_type := master_machine_type (self helper);
          cc_worker_machine_type := worker_machine_type (self helper);
          cc_num_preemptible_workers := num_preemptible_workers (self helper);
          cc_optional_components := optional_components (self helper);
          cc_install_component_gateway := install_component_gateway (self helper);
          cc_init_actions_uris := init_actions_uris;
          cc_metadata := metadata |}).

(** [DataProcHelper.delete_cluster] *)
Definition delete_cluster (helper : DataProcHelper) : M Task :=
  new_task "delete_dataproc_cluster"
    (DataprocClusterDeleteOperator
       {| cd_cluster_name := cluster_name (self helper);
          cd_gcp_conn_id := gcp_conn_id (self helper);
          cd_project_id := project_id (connection helper) |}).

(** [moz_dataproc_pyspark_runner] *)
Definition moz_dataproc_pyspark_runner
    (kw : RunnerKwargs) (python_driver_code : option string) (py_args : option loc)
  : M DAG :=
  match cluster_name (cluster kw), python_driver_code with
  | Some name, Some main =>
      dataproc_helper <- DataProcHelper__init__ (cluster kw) ;;
      let _dag_name := Py.str (parent_dag_name kw) +:+ "." +:+ dag_name kw in
      with_DAG _dag_name (default_args kw)
        (create_dataproc_cluster <- create_cluster dataproc_helper ;;
         run_pyspark_on_dataproc <-
           new_task "run_dataproc_pyspark"
             (DataProcPySparkOperator
                {| ps_job_name := job_name kw;
                   ps_cluster_name := name;
                   ps_main := main;
                   ps_arguments := py_args;
                   ps_gcp_conn_id := gcp_conn_id (cluster kw) |}) ;;
         delete_dataproc_cluster <- delete_cluster dataproc_helper ;;
         run <- rshift create_dataproc_cluster run_pyspark_on_dataproc ;;
         rshift run delete_dataproc_cluster ;;;
         current_dag)
  | _, _ =>
      raise (AirflowException "Please specify cluster_name and/or python_driver_code.")
  end.

(** [moz_dataproc_jar_runner] *)
Definition moz_dataproc_jar_runner
    (kw : RunnerKwargs) (jar_urls : option loc) (main_class : option string)
    (jar_args : option loc)
  : M DAG :=
  match cluster_name (cluster kw), jar_urls, main_class with
  | Some name, Some jars, Some main =>
      dataproc_helper <- DataProcHelper__init__ (cluster kw) ;;
      let _dag_name := Py.str (parent_dag_name kw) +:+ "." +:+ dag_name kw in
      with_DAG _dag_name (default_args kw)
        (create_dataproc_cluster <- create_cluster dataproc_helper ;;
         run_jar_on_dataproc <-
           new_task "run_jar_on_dataproc"
             (DataProcSparkOperator
                {| sp_cluster_name := name;
                   sp_job_name := job_name kw;
                   sp_dataproc_spark_jars := jars;
                   sp_main_class := main;
                   sp_arguments := jar_args;
                   sp_gcp_conn_id := gcp_conn_id (cluster kw) |}) ;;
         delete_dataproc_cluster <- delete_cluster dataproc_helper ;;
         run <- rshift create_dataproc_cluster run_jar_on_dataproc ;;
         rshift run delete_dataproc_cluster ;;;
         current_dag)
  | _, _, _ =>
      raise (AirflowException "Please specify cluster_name, jar_urls, and/or main_class.")
  end.

(** [moz_dataproc_scriptrunner] *)
Definition moz_dataproc_scriptrunner
    (kw : RunnerKwargs) (uri : option string) (env : option loc)
    (arguments : option string)
  : M DAG :=
  match job_name kw, uri, cluster_name (cluster kw) with
  | Some job, Some script, Some name =>
      dataproc_helper <- DataProcHelper__init__ (cluster kw) ;;
      let _dag_name := Py.str (parent_dag_name kw) +:+ "." +:+ dag_name kw in
      environment <- _format_envvar env ;;
      let jar_url :=
        "gs://" +:+ artifact_bucket (cluster kw) +:+ "/bin/script-runner.jar" in
      args <-
        alloc (PyList ["gs://" +:+ artifact_bucket (cluster kw)
                         +:+ "/bootstrap/airflow_gcp.sh";
                       "--job-name"; job;
                       "--uri"; script;
                       "--environment"; environment]) ;;
      (match arguments with
       | Some a => if Py.truthy_str a then iadd args ["--arguments"; a] else ret ()
       | None => ret ()
       end) ;;;
      with_DAG _dag_name (default_args kw)
        (create_dataproc_cluster <- create_cluster dataproc_helper ;;
         jars <- alloc (PyList [jar_url]) ;;
         run_script_on_dataproc <-
           new_task "run_script_on_dataproc"
             (DataProcSparkOperator
                {| sp_cluster_name := name;
                   sp_job_name := Some job;
                   sp_dataproc_spark_jars := jars;
                   sp_main_class := "com.amazon.elasticmapreduce.scriptrunner.ScriptRunner";
                   sp_arguments := Some args;
                   sp_gcp_conn_id := gcp_conn_id (cluster kw) |}) ;;
         delete_dataproc_cluster <- delete_cluster dataproc_helper ;;
         run <- rshift create_dataproc_cluster run_script_on_dataproc ;;
         rshift run delete_dataproc_cluster ;;;
         current_dag)
  | _, _, _ =>
      raise (AirflowException "Please specify job_name, uri, and cluster_name.")
  end.

End Dataproc.

(** * Specification *)

(** ** Reading the store *)


(** The list at an address, if there is one. *)
Definition list_at (h : list PyObj) (l : loc) : option (list string) :=
  match h !! l with
  | Some (PyList xs) => Some xs
  | _ => None
  end.

(** The dict at an address, if there is one. *)
Definition dict_at (h : list PyObj) (l : loc) : option (list (string * string)) :=
  match h !! l with
  | Some (PyDict items) => Some items
  | _ => None
  end.

(** The task registered under an id. *)
Definition task (d : DAG) (tid : string) : option Task := task_dict d !! tid.

(** ** What the builders are expected to produce *)

(** The properties that a credentials tuple contributes. *)
Definition injected (c : ReadOnlyCredentials) : list (string * string) :=
  omap (λ kv, pair ("core:fs.s3a." +:+ fst kv) <$> snd kv)
       (zip ["access.key"; "secret.key"; "session.token"] (credentials_fields c)).

(** The credential lookups that building a cluster makes. *)
Definition aws_calls (kw : ClusterKwargs) : list ExternalCall :=
  match aws_conn_id kw with
  | Some conn_id => if Py.truthy_str conn_id then [AwsCredentialLookup conn_id] else []
  | None => []
  end.

(** The outcome of those lookups: the properties to set, or the exception of
    the hook. *)
Definition aws_properties (hooks : Hooks) (kw : ClusterKwargs)
  : Exn + list (string * string) :=
  match aws_conn_id kw with
  | Some conn_id =>
      if Py.truthy_str conn_id then
        match aws_credentials hooks conn_id with
        | inr c => inr (injected c)
        | inl e => inl e
        end
      else inr []
  | None => inr []
  end.

(** A task nothing is ordered against yet. *)
Definition fresh_task (tid : string) (op : Operator) : Task :=
  {| task_id := tid; operator := op; upstream_task_ids := ∅; downstream_task_ids := ∅ |}.

(** The create operator of a helper whose three containers start at address [n]. *)
Definition create_operator (helper : DataProcHelper) (n : loc) : Operator :=
  DataprocClusterCreateOperator
    {| cc_cluster_name := cluster_name (self helper);
       cc_gcp_conn_id := gcp_conn_id (self helper);
       cc_service_account := service_account (self helper);
       cc_project_id := project_id (connection helper);
       cc_storage_bucket := "moz-fx-data-prod-dataproc-scratch";
       cc_num_workers := num_workers (self helper);
       cc_image_version := image_version (self helper);
       cc_properties := n;
       cc_zone := zone (self helper);
       cc_idle_delete_ttl := idle_delete_ttl (self helper);
       cc_auto_delete_ttl := auto_delete_ttl (self helper);
       cc_master_machine_type := master_machine_type (self helper);
       cc_worker_machine_type := worker_machine_type (self helper);
       cc_num_preemptible_workers := num_preemptible_workers (self helper);
       cc_optional_components := optional_components (self helper);
       cc_install_component_gateway := install_component_gateway (self helper);
       cc_init_actions_uris := S n;
       cc_metadata := S (S n) |}.

(** The three containers [create_cluster] makes. *)
Definition create_objects (helper : DataProcHelper) (props : list (string * string))
  : list PyObj :=
  [PyDict props;
   PyList ["gs://" +:+ artifact_bucket (self helper) +:+ "/bootstrap/dataproc_init.sh"];
   PyDict [("gcs-connector-version", "1.9.16"); ("bigquery-connector-version", "0.13.6")]].

Definition delete_operator (helper : DataProcHelper) : Operator :=
  DataprocClusterDeleteOperator
    {| cd_cluster_name := cluster_name (self helper);
       cd_gcp_conn_id := gcp_conn_id (self helper);
       cd_project_id := project_id (connection helper) |}.

(** The DAG in which [create >> run >> delete] has been declared. *)
Definition chain_dag (name : string) (default_args : option loc)
    (create_op : Operator) (run_id : string) (run_op delete_op : Operator) : DAG :=
  {| dag_id := name;
     dag_default_args := default_args;
     task_dict :=
       <["delete_dataproc_cluster" :=
           {| task_id := "delete_dataproc_cluster"; operator := delete_op;
              upstream_task_ids := {[run_id]}; downstream_task_ids := ∅ |}]>
       (<[run_id :=
           {| task_id := run_id; operator := run_op;
              upstream_task_ids := {["create_dataproc_cluster"]};
              downstream_task_ids := {["delete_dataproc_cluster"]} |}]>
       (<["create_dataproc_cluster" :=
           {| task_id := "create_dataproc_cluster"; operator := create_op;
              upstream_task_ids := ∅; downstream_task_ids := {[run_id]} |}]> ∅)) |}.

(** The name a builder gives its DAG. *)
Definition dag_name_of (kw : RunnerKwargs) : string :=
  Py.str (parent_dag_name kw) +:+ "." +:+ dag_name kw.

(** The external calls of a build that gets as far as [create_cluster]. *)
Definition build_calls (kw : RunnerKwargs) : list ExternalCall :=
  GcpConnectionLookup (gcp_conn_id (cluster kw)) :: aws_calls (cluster kw).

Definition helper_of (kw : RunnerKwargs) (hook : GcpHook) : DataProcHelper :=
  {| self := cluster kw; connection := hook |}.

(** The DAG [moz_dataproc_pyspark_runner] returns when the store has [n]
    objects at the call. *)
Definition pyspark_dag (kw : RunnerKwargs) (name main : string) (py_args : option loc)
    (hook : GcpHook) (n : loc) : DAG :=
  chain_dag (dag_name_of kw) (default_args kw)
    (create_operator (helper_of kw hook) n)
    "run_dataproc_pyspark"
    (DataProcPySparkOperator
       {| ps_job_name := job_name kw;
          ps_cluster_name := name;
          ps_main := main;
          ps_arguments := py_args;
          ps_gcp_conn_id := gcp_conn_id (cluster kw) |})
    (delete_operator (helper_of kw hook)).

(** The DAG [moz_dataproc_jar_runner] returns. *)
Definition jar_dag (kw : RunnerKwargs) (name : string) (jars : loc) (main : string)
    (jar_args : option loc) (hook : GcpHook) (n : loc) : DAG :=
  chain_dag (dag_name_of kw) (default_args kw)
    (create_operator (helper_of kw hook) n)
    "run_jar_on_dataproc"
    (DataProcSparkOperator
       {| sp_cluster_name := name;
          sp_job_name := job_name kw;
          sp_dataproc_spark_jars := jars;
          sp_main_class := main;
          sp_arguments := jar_args;
          sp_gcp_conn_id := gcp_conn_id (cluster kw) |})
    (delete_operator (helper_of kw hook)).

(** The DAG [moz_dataproc_scriptrunner] returns: the argument list is the
    object at [n], the containers of the create task follow it, and the jar
    list comes last. *)
Definition script_dag (kw : RunnerKwargs) (job name : string) (hook : GcpHook) (n : loc)
  : DAG :=
  chain_dag (dag_name_of kw) (default_args kw)
    (create_operator (helper_of kw hook) (S n))
    "run_script_on_dataproc"
    (DataProcSparkOperator
       {| sp_cluster_name := name;
          sp_job_name := Some job;
          sp_dataproc_spark_jars := S (S (S (S n)));
          sp_main_class := "com.amazon.elasticmapreduce.scriptrunner.ScriptRunner";
          sp_arguments := Some n;
          sp_gcp_conn_id := gcp_conn_id (cluster kw) |})
    (delete_operator (helper_of kw hook)).

(** The argument list of the script runner. *)
Definition script_args (bucket job script environment : string) (arguments : option string)
  : list string :=
  ["gs://" +:+ bucket +:+ "/bootstrap/airflow_gcp.sh";
   "--job-name"; job; "--uri"; script; "--environment"; environment]
  ++ (if Py.truthy arguments then ["--arguments"; Py.str arguments] else []).

(** What [(env or {}).items()] yields, when it yields. *)
Definition env_items (h : list PyObj) (env : option loc) : option (list (string * string)) :=
  match env with
  | None => Some []
  | Some l =>
      match h !! l with
      | Some (PyDict items) => Some items
      | Some (PyList []) => Some []
      | _ => None
      end
  end.

(** ** Invocations and the shape of a workflow *)

(** A call of one of the three builders. *)
Inductive Invocation :=
| PysparkJob (kw : RunnerKwargs) (python_driver_code : option string) (py_args : option loc)
| JarJob (kw : RunnerKwargs) (jar_urls : option loc) (main_class : option string)
    (jar_args : option loc)
| ScriptJob (kw : RunnerKwargs) (uri : option string) (env : option loc)
    (arguments : option string).

Definition build (hooks : Hooks) (i : Invocation) : M DAG :=
  match i with
  | PysparkJob kw python_driver_code py_args =>
      moz_dataproc_pyspark_runner hooks kw python_driver_code py_args
  | JarJob kw jar_urls main_class jar_args =>
      moz_dataproc_jar_runner hooks kw jar_urls main_class jar_args
  | ScriptJob kw uri env arguments =>
      moz_dataproc_scriptrunner hooks kw uri env arguments
  end.

(** The id each builder gives its run task. *)
Definition run_task_id (i : Invocation) : string :=
  match i with
  | PysparkJob _ _ _ => "run_dataproc_pyspark"
  | JarJob _ _ _ _ => "run_jar_on_dataproc"
  | ScriptJob _ _ _ _ => "run_script_on_dataproc"
  end.

Definition is_none {A} (o : option A) : bool :=
  match o with
  | None => true
  | Some _ => false
  end.

(** A required field of the invocation was left out. *)
Definition omits_required (i : Invocation) : bool :=
  match i with
  | PysparkJob kw python_driver_code _ =>
      is_none (cluster_name (cluster kw)) || is_none python_driver_code
  | JarJob kw jar_urls main_class _ =>
      is_none (cluster_name (cluster kw)) || is_none jar_urls || is_none main_class
  | ScriptJob kw uri _ _ =>
      is_none (job_name kw) || is_none uri || is_none (cluster_name (cluster kw))
  end.

(** The message of the exception a builder raises for that. *)
Definition configuration_error (i : Invocation) : Exn :=
  match i with
  | PysparkJob _ _ _ =>
      AirflowException "Please specify cluster_name and/or python_driver_code."
  | JarJob _ _ _ _ =>
      AirflowException "Please specify cluster_name, jar_urls, and/or main_class."
  | ScriptJob _ _ _ _ =>
      AirflowException "Please specify job_name, uri, and cluster_name."
  end.

(** The tasks that a task declares as its predecessors and successors. *)
Definition predecessors (d : DAG) (tid : string) : option (gset string) :=
  upstream_task_ids <$> task d tid.

Definition successors (d : DAG) (tid : string) : option (gset string) :=
  downstream_task_ids <$> task d tid.

(** create → run → delete, and nothing else. *)
Definition three_chain (d : DAG) (run_id : string) : Prop :=
  dom (task_dict d) = {["create_dataproc_cluster"; run_id; "delete_dataproc_cluster"]}
  ∧ size (task_dict d) = 3
  ∧ predecessors d "create_dataproc_cluster" = Some ∅
  ∧ predecessors d run_id = Some {["create_dataproc_cluster"]}
  ∧ predecessors d "delete_dataproc_cluster" = Some {[run_id]}
  ∧ successors d "create_dataproc_cluster" = Some {[run_id]}
  ∧ successors d run_id = Some {["delete_dataproc_cluster"]}
  ∧ successors d "delete_dataproc_cluster" = Some ∅.

(** ** Concrete inputs *)

(** Hooks that answer every lookup: a project, and static credentials
    without a session token. *)
Definition answering_hooks : Hooks :=
  {| gcp_connection := λ _, inr {| project_id := Some "moz-fx-data" |};
     aws_credentials := λ _,
       inr {| access_key := Some "AKIAEXAMPLE";
              secret_key := Some "s3cr3t";
              token := None |} |}.

Definition empty_world : World :=
  {| heap := []; context_dag := None; calls := [] |}.

(** The module once imported: the four default lists are objects 0 to 3. *)
Definition module_defaults : ModuleDefaults :=
  {| helper_optional_components := 0;
     pyspark_optional_components := 1;
     jar_optional_components := 2;
     script_optional_components := 3 |}.

Definition module_world : World :=
  {| heap := [PyList ["ANACONDA"]; PyList ["ANACONDA"];
              PyList ["ANACONDA"]; PyList ["ANACONDA"]];
     context_dag := None;
     calls := [] |}.

(** The module, and a caller's objects: an environment dict (4), an empty
    list (5), an argument list (6), a one-jar list (7), and two more
    environment dicts (8, 9). *)
Definition caller_world : World :=
  {| heap := heap module_world
             ++ [PyDict [("k", "v")]; PyList []; PyList ["-d"; "20200101"];
                 PyList ["gs://b/udf.jar"];
                 PyDict [("date", "20200101")]; PyDict []];
     context_dag := None;
     calls := [] |}.


(** Keyword arguments that name a job and a cluster and leave the rest to
    the defaults of the signature. *)
Definition named (defaults : RunnerKwargs) (job name : string) : RunnerKwargs :=
  {| parent_dag_name := Some "main";
     dag_name := dag_name defaults;
     default_args := default_args defaults;
     job_name := Some job;
     cluster :=
       {| cluster_name := Some name;
          num_workers := num_workers (cluster defaults);
          image_version := image_version (cluster defaults);
          zone := zone (cluster defaults);
          idle_delete_ttl := idle_delete_ttl (cluster defaults);
          auto_delete_ttl := auto_delete_ttl (cluster defaults);
          master_machine_type := master_machine_type (cluster defaults);
          worker_machine_type := worker_machine_type (cluster defaults);
          num_preemptible_workers := num_preemptible_workers (cluster defaults);
          service_account := service_account (cluster defaults);
          artifact_bucket := artifact_bucket (cluster defaults);
          optional_components := optional_components (cluster defaults);
          install_component_gateway := install_component_gateway (cluster defaults);
          aws_conn_id := aws_conn_id (cluster defaults);
          gcp_conn_id := gcp_conn_id (cluster defaults) |} |}.

(** The store and the trace after the script runner of the examples. *)
Definition script_world_after (args : list string) : World :=
  {| heap := heap caller_world
             ++ [PyList args;
                 PyDict [];
                 PyList ["gs://moz-fx-data-prod-airflow-dataproc-artifacts/bootstrap/dataproc_init.sh"];
                 PyDict [("gcs-connector-version", "1.9.16");
                         ("bigquery-connector-version", "0.13.6")];
                 PyList ["gs://moz-fx-data-prod-airflow-dataproc-artifacts/bin/script-runner.jar"]];
     context_dag := None;
     calls := [GcpConnectionLookup "google_cloud_airflow_dataproc"] |}.

(** ** Reading a workflow *)

(** The argument list that the task [tid] of [d] holds, read in store [h]. *)
Definition run_arguments (h : list PyObj) (d : DAG) (tid : string) : option (list string) :=
  match task d tid with
  | Some t =>
      match operator t with
      | DataProcSparkOperator a =>
          match sp_arguments a with
          | Some l => list_at h l
          | None => None
          end
      | DataProcPySparkOperator a =>
          match ps_arguments a with
          | Some l => list_at h l
          | None => None
          end
      | _ => None
      end
  | None => None
  end.


(** The spec of environment flattening, in its words: every entry becomes
    key=value, and the entries are joined by single spaces, in the order of
    the mapping. *)
Fixpoint flatten (entries : list (string * string)) : string :=
  match entries with
  | [] => ""
  | [(k, v)] => k +:+ "=" +:+ v
  | (k, v) :: rest => k +:+ "=" +:+ v +:+ " " +:+ flatten rest
  end.

(** ** Claims that do not hold as they are stated *)



(** ** Views and ownership *)












(** ** Outcomes of a build *)

(** The common keyword arguments of an invocation. *)
Definition kwargs_of (i : Invocation) : RunnerKwargs :=
  match i with
  | PysparkJob kw _ _ => kw
  | JarJob kw _ _ _ => kw
  | ScriptJob kw _ _ _ => kw
  end.

(** The [env] of an invocation: only the script runner has one. *)
Definition invocation_env (i : Invocation) : option loc :=
  match i with
  | ScriptJob _ _ env _ => env
  | _ => None
  end.

(** The GCP lookup every builder makes through [DataProcHelper.__init__]. *)
Definition gcp_call (i : Invocation) : ExternalCall :=
  GcpConnectionLookup (gcp_conn_id (cluster (kwargs_of i))).

(** The cluster an operator is aimed at. *)
Definition operator_cluster_name (op : Operator) : option string :=
  match op with
  | DataprocClusterCreateOperator a => cc_cluster_name a
  | DataprocClusterDeleteOperator a => cd_cluster_name a
  | DataProcPySparkOperator a => Some (ps_cluster_name a)
  | DataProcSparkOperator a => Some (sp_cluster_name a)
  end.

(** The GCP connection an operator uses. *)
Definition operator_gcp_conn_id (op : Operator) : string :=
  match op with
  | DataprocClusterCreateOperator a => cc_gcp_conn_id a
  | DataprocClusterDeleteOperator a => cd_gcp_conn_id a
  | DataProcPySparkOperator a => ps_gcp_conn_id a
  | DataProcSparkOperator a => sp_gcp_conn_id a
  end.

(** Hooks whose GCP connection is not defined. *)
Definition hooks_without_gcp : Hooks :=
  {| gcp_connection := λ _, inl (AirflowException "The conn_id isn't defined");
     aws_credentials := aws_credentials answering_hooks |}.



(** The three invocations of the examples, on the objects of [caller_world]. *)
Definition pyspark_example : Invocation :=
  PysparkJob (named (pyspark_defaults module_defaults) "J" "c")
    (Some "gs://b/main.py") (Some 6).

Definition jar_example : Invocation :=
  JarJob (named (jar_defaults module_defaults) "J" "c")
    (Some 7) (Some "com.mozilla.Main") (Some 6).

Definition script_example : Invocation :=
  ScriptJob (named (script_defaults module_defaults) "J" "c")
    (Some "gs://b/s.py") (Some 4) (Some "-d 1").

(** The keyword arguments [kw] with [parent_dag_name] left out. *)
Definition without_parent (kw : RunnerKwargs) : RunnerKwargs :=
  {| parent_dag_name := None;
     dag_name := dag_name kw;
     default_args := default_args kw;
     job_name := job_name kw;
     cluster := cluster kw |}.

(** What the three examples return, and the world they leave. *)
Definition example_hook : GcpHook := {| project_id := Some "moz-fx-data" |}.

Definition pyspark_example_dag : DAG :=
  pyspark_dag (named (pyspark_defaults module_defaults) "J" "c") "c" "gs://b/main.py"
    (Some 6) example_hook 10.

Definition jar_example_dag : DAG :=
  jar_dag (named (jar_defaults module_defaults) "J" "c") "c" 7 "com.mozilla.Main"
    (Some 6) example_hook 10.

Definition script_example_dag : DAG :=
  script_dag (named (script_defaults module_defaults) "J" "c") "J" "c" example_hook 10.

Definition create_example_world : World :=
  {| heap := heap caller_world
             ++ [PyDict [];
                 PyList ["gs://moz-fx-data-prod-airflow-dataproc-artifacts/bootstrap/dataproc_init.sh"];
                 PyDict [("gcs-connector-version", "1.9.16");
                         ("bigquery-connector-version", "0.13.6")]];
     context_dag := None;
     calls := [GcpConnectionLookup "google_cloud_airflow_dataproc"] |}.

Definition script_example_world : World :=
  script_world_after
    ["gs://moz-fx-data-prod-airflow-dataproc-artifacts/bootstrap/airflow_gcp.sh";
     "--job-name"; "J"; "--uri"; "gs://b/s.py"; "--environment"; "k=v";
     "--arguments"; "-d 1"].

(** How a call of a builder can end.  The checks come in this order: the
    required fields, the GCP connection, the environment of the script
    runner, the AWS credentials. *)
Inductive outcome (hooks : Hooks) (i : Invocation) (w : World) : Exn + DAG → World → Prop :=
| outcome_configuration :
    omits_required i = true →
    outcome hooks i w (inl (configuration_error i)) w
| outcome_gcp e :
    omits_required i = false →
    gcp_connection hooks (gcp_conn_id (cluster (kwargs_of i))) = inl e →
    outcome hooks i w (inl e) (log_call (gcp_call i) w)
| outcome_env hook :
    omits_required i = false →
    gcp_connection hooks (gcp_conn_id (cluster (kwargs_of i))) = inr hook →
    env_items (heap w) (invocation_env i) = None →
    outcome hooks i w (inl (AttributeError "items")) (log_call (gcp_call i) w)
| outcome_aws hook items e objs :
    omits_required i = false →
    gcp_connection hooks (gcp_conn_id (cluster (kwargs_of i))) = inr hook →
    env_items (heap w) (invocation_env i) = Some items →
    aws_properties hooks (cluster (kwargs_of i)) = inl e →
    (length objs ≤ 2)%nat →
    outcome hooks i w (inl e)
      {| heap := heap w ++ objs;
         context_dag := context_dag w;
         calls := calls w ++ build_calls (kwargs_of i) |}
| outcome_dag hook items props d objs :
    omits_required i = false →
    gcp_connection hooks (gcp_conn_id (cluster (kwargs_of i))) = inr hook →
    env_items (heap w) (invocation_env i) = Some items →
    aws_properties hooks (cluster (kwargs_of i)) = inr props →
    (length objs ≤ 5)%nat →
    outcome hooks i w (inr d)
      {| heap := heap w ++ objs;
         context_dag := context_dag w;
         calls := calls w ++ build_calls (kwargs_of i) |}.

(** * Proofs *)

Lemma setitem_newest h items k v ctx cs :
  setitem (length h) k v {| heap := h ++ [PyDict items]; context_dag := ctx; calls := cs |}
  = (inr (), {| heap := h ++ [PyDict (dict_set k v items)];
                context_dag := ctx; calls := cs |}).
Proof.
  unfold setitem, set_heap; cbn.
  rewrite list_lookup_middle by done.
  replace (length h) with (length h + 0) at 1 by lia.
  by rewrite insert_app_r.
Qed.

Lemma iadd_newest h xs ys ctx cs :
  iadd (length h) ys {| heap := h ++ [PyList xs]; context_dag := ctx; calls := cs |}
  = (inr (), {| heap := h ++ [PyList (xs ++ ys)]; context_dag := ctx; calls := cs |}).
Proof.
  unfold iadd, set_heap; cbn.
  rewrite list_lookup_middle by done.
  replace (length h) with (length h + 0) at 1 by lia.
  by rewrite insert_app_r.
Qed.

Lemma injected_loop h c ctx cs :
  for_ (zip ["access.key"; "secret.key"; "session.token"] (credentials_fields c))
       (λ kv, match snd kv with
              | Some value => setitem (length h) ("core:fs.s3a." +:+ fst kv) value
              | None => ret ()
              end)
       {| heap := h ++ [PyDict []]; context_dag := ctx; calls := cs |}
  = (inr (), {| heap := h ++ [PyDict (injected c)]; context_dag := ctx; calls := cs |}).
Proof.
  destruct c as [[a|] [s|] [t|]]; cbn -[setitem];
    unfold bind, ret; rewrite ?setitem_newest; reflexivity.
Qed.

Section CreateCluster.

Context (hooks : Hooks).

Lemma bind_ok {A B} (c : M A) (k : A → M B) w a w' :
  c w = (inr a, w') → bind c k w = k a w'.
Proof. unfold bind. by intros ->. Qed.

Lemma bind_err {A B} (c : M A) (k : A → M B) w e w' :
  c w = (inl e, w') → bind c k w = (inl e, w').
Proof. unfold bind. by intros ->. Qed.

Lemma credentials_loop_ok helper props h ctx cs :
  aws_properties hooks (self helper) = inr props →
  (match aws_conn_id (self helper) with
   | Some conn_id =>
       if Py.truthy_str conn_id then
         credentials <- AwsHook_get_credentials hooks conn_id ;;
         for_ (zip ["access.key"; "secret.key"; "session.token"]
                   (credentials_fields credentials))
              (λ kv, match snd kv with
                     | Some value => setitem (length h) ("core:fs.s3a." +:+ fst kv) value
                     | None => ret ()
                     end)
       else ret ()
   | None => ret ()
   end) {| heap := h ++ [PyDict []]; context_dag := ctx; calls := cs |}
  = (inr (), {| heap := h ++ [PyDict props]; context_dag := ctx;
                calls := cs ++ aws_calls (self helper) |}).
Proof.
  unfold aws_properties, aws_calls.
  destruct (aws_conn_id (self helper)) as [c|]; [destruct (Py.truthy_str c)|].
  - destruct (aws_credentials hooks c) as [e|cr] eqn:Hc; [done|]. intros [= <-].
    erewrite bind_ok; [apply injected_loop|].
    unfold AwsHook_get_credentials, log_call. by rewrite Hc.
  - intros [= <-]. by rewrite app_nil_r.
  - intros [= <-]. by rewrite app_nil_r.
Qed.

Lemma credentials_loop_err helper e h ctx cs :
  aws_properties hooks (self helper) = inl e →
  (match aws_conn_id (self helper) with
   | Some conn_id =>
       if Py.truthy_str conn_id then
         credentials <- AwsHook_get_credentials hooks conn_id ;;
         for_ (zip ["access.key"; "secret.key"; "session.token"]
                   (credentials_fields credentials))
              (λ kv, match snd kv with
                     | Some value => setitem (length h) ("core:fs.s3a." +:+ fst kv) value
                     | None => ret ()
                     end)
       else ret ()
   | None => ret ()
   end) {| heap := h ++ [PyDict []]; context_dag := ctx; calls := cs |}
  = (inl e, {| heap := h ++ [PyDict []]; context_dag := ctx;
               calls := cs ++ aws_calls (self helper) |}).
Proof.
  unfold aws_properties, aws_calls.
  destruct (aws_conn_id (self helper)) as [c|]; [destruct (Py.truthy_str c)|]; try done.
  destruct (aws_credentials hooks c) as [e'|cr] eqn:Hc; [|done]. intros [= <-].
  erewrite bind_err; [done|].
  unfold AwsHook_get_credentials, log_call. by rewrite Hc.
Qed.

Lemma create_cluster_ok helper props w :
  aws_properties hooks (self helper) = inr props →
  create_cluster hooks helper w
  = (inr (fresh_task "create_dataproc_cluster" (create_operator helper (length (heap w)))),
     {| heap := heap w ++ create_objects helper props;
        context_dag :=
          add_task (fresh_task "create_dataproc_cluster"
                      (create_operator helper (length (heap w)))) <$> context_dag w;
        calls := calls w ++ aws_calls (self helper) |}).
Proof.
  intros Hp. destruct w as [h ctx cs]. unfold create_cluster.
  erewrite bind_ok by reflexivity.
  unfold set_heap; cbn [heap context_dag calls].
  erewrite bind_ok by (by apply credentials_loop_ok).
  unfold bind, alloc, new_task, set_heap, set_context_dag, fresh_task, create_operator,
    create_objects; cbn [heap context_dag calls].
  rewrite <- !app_assoc, !length_app; cbn [length app Nat.add].
  by rewrite !Nat.add_succ_r, !Nat.add_0_r.
Qed.

Lemma create_cluster_err helper e w :
  aws_properties hooks (self helper) = inl e →
  create_cluster hooks helper w
  = (inl e, {| heap := heap w ++ [PyDict []]; context_dag := context_dag w;
               calls := calls w ++ aws_calls (self helper) |}).
Proof.
  intros Hp. destruct w as [h ctx cs]. unfold create_cluster.
  erewrite bind_ok by reflexivity.
  unfold set_heap; cbn [heap context_dag calls].
  by erewrite bind_err by (by apply credentials_loop_err).
Qed.

End CreateCluster.

Lemma add_three_tasks name default_args create_op run_id run_op delete_op :
  run_id ≠ "create_dataproc_cluster" →
  run_id ≠ "delete_dataproc_cluster" →
  add_task (fresh_task "delete_dataproc_cluster" delete_op)
    (add_task (fresh_task run_id run_op)
       (add_task (fresh_task "create_dataproc_cluster" create_op)
          {| dag_id := name; dag_default_args := default_args; task_dict := ∅ |}))
  = {| dag_id := name; dag_default_args := default_args;
       task_dict :=
         <["delete_dataproc_cluster" := fresh_task "delete_dataproc_cluster" delete_op]>
         (<[run_id := fresh_task run_id run_op]>
         (<["create_dataproc_cluster" :=
              fresh_task "create_dataproc_cluster" create_op]> ∅)) |}.
Proof.
  intros H1 H2. unfold add_task; cbn [task_dict task_id fresh_task dag_id dag_default_args].
  rewrite lookup_empty; cbn [task_dict task_id dag_id dag_default_args].
  rewrite lookup_insert_ne, lookup_empty by done.
  cbn [task_dict task_id dag_id dag_default_args].
  rewrite !lookup_insert_ne, lookup_empty by done.
  done.
Qed.

Lemma declare_chain name default_args create_op run_id run_op delete_op :
  run_id ≠ "create_dataproc_cluster" →
  run_id ≠ "delete_dataproc_cluster" →
  set_relation run_id "delete_dataproc_cluster"
    (set_relation "create_dataproc_cluster" run_id
       {| dag_id := name; dag_default_args := default_args;
          task_dict :=
            <["delete_dataproc_cluster" := fresh_task "delete_dataproc_cluster" delete_op]>
            (<[run_id := fresh_task run_id run_op]>
            (<["create_dataproc_cluster" :=
                 fresh_task "create_dataproc_cluster" create_op]> ∅)) |})
  = chain_dag name default_args create_op run_id run_op delete_op.
Proof.
  intros H1 H2. unfold set_relation, chain_dag; cbn [task_dict dag_id dag_default_args].
  assert ("create_dataproc_cluster" ≠ run_id) as H1' by done.
  assert ("delete_dataproc_cluster" ≠ run_id) as H2' by done.
  f_equal. apply map_eq; intros k.
  unfold add_upstream, add_downstream, fresh_task.
  destruct (decide (k = "delete_dataproc_cluster")) as [->|Hd];
    [|destruct (decide (k = run_id)) as [->|Hr];
      [|destruct (decide (k = "create_dataproc_cluster")) as [->|Hc]]];
    repeat first
      [ rewrite lookup_alter_eq | rewrite lookup_alter_ne by done
      | rewrite lookup_insert_eq | rewrite lookup_insert_ne by done
      | rewrite lookup_empty ];
    cbn [fmap option_fmap option_map task_id operator upstream_task_ids downstream_task_ids];
    rewrite ?(right_id_L ∅ (∪)); done.
Qed.

Section Runs.

Context (hooks : Hooks).

Lemma helper_init_ok kw hook w :
  gcp_connection hooks (gcp_conn_id kw) = inr hook →
  DataProcHelper__init__ hooks kw w
  = (inr {| self := kw; connection := hook |},
     log_call (GcpConnectionLookup (gcp_conn_id kw)) w).
Proof.
  intros Hg. unfold DataProcHelper__init__, bind, GoogleCloudBaseHook. by rewrite Hg.
Qed.

Lemma helper_init_err kw e w :
  gcp_connection hooks (gcp_conn_id kw) = inl e →
  DataProcHelper__init__ hooks kw w
  = (inl e, log_call (GcpConnectionLookup (gcp_conn_id kw)) w).
Proof.
  intros Hg. unfold DataProcHelper__init__, bind, GoogleCloudBaseHook. by rewrite Hg.
Qed.

Lemma with_DAG_run {A} name default_args (body : M A) w r w' :
  body (set_context_dag
          (Some {| dag_id := name; dag_default_args := default_args; task_dict := ∅ |}) w)
  = (r, w') →
  with_DAG name default_args body w = (r, set_context_dag (context_dag w) w').
Proof. unfold with_DAG. by intros ->. Qed.

Lemma pyspark_run kw code py_args w name main hook props :
  cluster_name (cluster kw) = Some name →
  code = Some main →
  gcp_connection hooks (gcp_conn_id (cluster kw)) = inr hook →
  aws_properties hooks (cluster kw) = inr props →
  moz_dataproc_pyspark_runner hooks kw code py_args w
  = (inr (pyspark_dag kw name main py_args hook (length (heap w))),
     {| heap := heap w ++ create_objects (helper_of kw hook) props;
        context_dag := context_dag w;
        calls := calls w ++ build_calls kw |}).
Proof.
  intros Hn -> Hg Hp. destruct w as [h ctx cs].
  unfold moz_dataproc_pyspark_runner. rewrite Hn.
  erewrite bind_ok by (by apply helper_init_ok).
  erewrite with_DAG_run.
  2:{ erewrite bind_ok by (by apply create_cluster_ok).
      unfold delete_cluster, new_task, rshift, current_dag, bind, set_context_dag, log_call;
        cbn [heap context_dag calls fmap option_fmap option_map task_id].
      reflexivity. }
  unfold pyspark_dag. rewrite <- declare_chain, <- add_three_tasks by done.
  unfold set_context_dag, log_call, build_calls, helper_of, dag_name_of;
    cbn [heap context_dag calls self].
  by rewrite <- app_assoc.
Qed.

Lemma jar_run kw jar_urls main_class jar_args w name jars main hook props :
  cluster_name (cluster kw) = Some name →
  jar_urls = Some jars →
  main_class = Some main →
  gcp_connection hooks (gcp_conn_id (cluster kw)) = inr hook →
  aws_properties hooks (cluster kw) = inr props →
  moz_dataproc_jar_runner hooks kw jar_urls main_class jar_args w
  = (inr (jar_dag kw name jars main jar_args hook (length (heap w))),
     {| heap := heap w ++ create_objects (helper_of kw hook) props;
        context_dag := context_dag w;
        calls := calls w ++ build_calls kw |}).
Proof.
  intros Hn -> -> Hg Hp. destruct w as [h ctx cs].
  unfold moz_dataproc_jar_runner. rewrite Hn.
  erewrite bind_ok by (by apply helper_init_ok).
  erewrite with_DAG_run.
  2:{ erewrite bind_ok by (by apply create_cluster_ok).
      unfold delete_cluster, new_task, rshift, current_dag, bind, set_context_dag, log_call;
        cbn [heap context_dag calls fmap option_fmap option_map task_id].
      reflexivity. }
  unfold jar_dag. rewrite <- declare_chain, <- add_three_tasks by done.
  unfold set_context_dag, log_call, build_calls, helper_of, dag_name_of;
    cbn [heap context_dag calls self].
  by rewrite <- app_assoc.
Qed.

Lemma format_envvar_run env items w :
  env_items (heap w) env = Some items →
  _format_envvar env w = (inr (format_items items), w).
Proof.
  unfold env_items, _format_envvar. destruct env as [l|]; [|by intros [= <-]].
  destruct (heap w !! l) as [[[|x xs]|d]|]; by intros [= <-].
Qed.

Lemma script_args_run {A} base arguments (k : loc → M A) w :
  (args <- alloc (PyList base) ;;
   (match arguments with
    | Some a => if Py.truthy_str a then iadd args ["--arguments"; a] else ret ()
    | None => ret ()
    end) ;;;
   k args) w
  = k (length (heap w))
      (set_heap
         (heap w ++ [PyList (base ++ (if Py.truthy arguments
                                      then ["--arguments"; Py.str arguments] else []))])
         w).
Proof.
  destruct w as [h ctx cs]. erewrite bind_ok by reflexivity.
  unfold set_heap; cbn [heap context_dag calls].
  destruct arguments as [[|c a]|]; cbn [Py.truthy Py.truthy_str Py.str].
  - unfold bind, ret. by rewrite app_nil_r.
  - erewrite bind_ok by apply iadd_newest. done.
  - unfold bind, ret. by rewrite app_nil_r.
Qed.

Lemma script_run kw uri env arguments w job script name hook items props :
  job_name kw = Some job →
  uri = Some script →
  cluster_name (cluster kw) = Some name →
  gcp_connection hooks (gcp_conn_id (cluster kw)) = inr hook →
  env_items (heap w) env = Some items →
  aws_properties hooks (cluster kw) = inr props →
  moz_dataproc_scriptrunner hooks kw uri env arguments w
  = (inr (script_dag kw job name hook (length (heap w))),
     {| heap :=
          heap w
          ++ PyList (script_args (artifact_bucket (cluster kw)) job script
                       (format_items items) arguments)
          :: create_objects (helper_of kw hook) props
          ++ [PyList ["gs://" +:+ artifact_bucket (cluster kw) +:+ "/bin/script-runner.jar"]];
        context_dag := context_dag w;
        calls := calls w ++ build_calls kw |}).
Proof.
  intros Hj -> Hn Hg He Hp. destruct w as [h ctx cs].
  unfold moz_dataproc_scriptrunner. rewrite Hj, Hn.
  erewrite bind_ok by (by apply helper_init_ok).
  erewrite bind_ok by (by apply format_envvar_run).
  rewrite script_args_run.
  unfold set_heap, log_call; cbn [heap context_dag calls].
  erewrite with_DAG_run.
  2:{ erewrite bind_ok by (by apply create_cluster_ok).
      unfold delete_cluster, new_task, rshift, current_dag, bind, alloc, set_heap,
        set_context_dag, log_call;
        cbn [heap context_dag calls fmap option_fmap option_map task_id].
      reflexivity. }
  rewrite !length_app; cbn [length create_objects Nat.add].
  rewrite !Nat.add_succ_r, !Nat.add_0_r.
  unfold script_dag. rewrite <- declare_chain, <- add_three_tasks by done.
  unfold set_context_dag, build_calls, script_args, helper_of, dag_name_of;
    cbn [heap context_dag calls self].
  by rewrite <- !app_assoc.
Qed.

(** A builder that returns a DAG had its required arguments, and its hooks
    answered. *)
Lemma pyspark_inv kw code py_args w d w' :
  moz_dataproc_pyspark_runner hooks kw code py_args w = (inr d, w') →
  ∃ name main hook props,
    cluster_name (cluster kw) = Some name ∧ code = Some main
    ∧ gcp_connection hooks (gcp_conn_id (cluster kw)) = inr hook
    ∧ aws_properties hooks (cluster kw) = inr props.
Proof.
  unfold moz_dataproc_pyspark_runner.
  destruct (cluster_name (cluster kw)) as [name|]; [|done].
  destruct code as [main|]; [|done].
  destruct (gcp_connection hooks (gcp_conn_id (cluster kw))) as [e|hook] eqn:Hg.
  { by erewrite bind_err by (by apply helper_init_err). }
  erewrite bind_ok by (by apply helper_init_ok).
  destruct (aws_properties hooks (cluster kw)) as [e|props] eqn:Hp.
  { erewrite with_DAG_run; [|by erewrite bind_err by (by apply create_cluster_err)]. done. }
  intros _. by exists name, main, hook, props.
Qed.

Lemma jar_inv kw jar_urls main_class jar_args w d w' :
  moz_dataproc_jar_runner hooks kw jar_urls main_class jar_args w = (inr d, w') →
  ∃ name jars main hook props,
    cluster_name (cluster kw) = Some name ∧ jar_urls = Some jars ∧ main_class = Some main
    ∧ gcp_connection hooks (gcp_conn_id (cluster kw)) = inr hook
    ∧ aws_properties hooks (cluster kw) = inr props.
Proof.
  unfold moz_dataproc_jar_runner.
  destruct (cluster_name (cluster kw)) as [name|]; [|done].
  destruct jar_urls as [jars|]; [|done].
  destruct main_class as [main|]; [|done].
  destruct (gcp_connection hooks (gcp_conn_id (cluster kw))) as [e|hook] eqn:Hg.
  { by erewrite bind_err by (by apply helper_init_err). }
  erewrite bind_ok by (by apply helper_init_ok).
  destruct (aws_properties hooks (cluster kw)) as [e|props] eqn:Hp.
  { erewrite with_DAG_run; [|by erewrite bind_err by (by apply create_cluster_err)]. done. }
  intros _. by exists name, jars, main, hook, props.
Qed.

Lemma format_envvar_err env w :
  env_items (heap w) env = None →
  _format_envvar env w = (inl (AttributeError "items"), w).
Proof.
  unfold env_items, _format_envvar. destruct env as [l|]; [|done].
  by destruct (heap w !! l) as [[[|x xs]|items]|].
Qed.

Lemma script_inv kw uri env arguments w d w' :
  moz_dataproc_scriptrunner hooks kw uri env arguments w = (inr d, w') →
  ∃ job script name hook items props,
    job_name kw = Some job ∧ uri = Some script ∧ cluster_name (cluster kw) = Some name
    ∧ gcp_connection hooks (gcp_conn_id (cluster kw)) = inr hook
    ∧ env_items (heap w) env = Some items
    ∧ aws_properties hooks (cluster kw) = inr props.
Proof.
  unfold moz_dataproc_scriptrunner.
  destruct (job_name kw) as [job|]; [|done].
  destruct uri as [script|]; [|done].
  destruct (cluster_name (cluster kw)) as [name|]; [|done].
  destruct (gcp_connection hooks (gcp_conn_id (cluster kw))) as [e|hook] eqn:Hg.
  { by erewrite bind_err by (by apply helper_init_err). }
  erewrite bind_ok by (by apply helper_init_ok).
  destruct (env_items (heap w) env) as [items|] eqn:He.
  2:{ by erewrite bind_err by (by apply format_envvar_err). }
  erewrite bind_ok by (by apply format_envvar_run).
  rewrite script_args_run.
  destruct (aws_properties hooks (cluster kw)) as [e|props] eqn:Hp.
  { erewrite with_DAG_run; [|by erewrite bind_err by (by apply create_cluster_err)]. done. }
  intros _. by exists job, script, name, hook, items, props.
Qed.

End Runs.

Lemma chain_dag_create name default_args create_op run_id run_op delete_op :
  run_id ≠ "create_dataproc_cluster" →
  task (chain_dag name default_args create_op run_id run_op delete_op)
    "create_dataproc_cluster"
  = Some {| task_id := "create_dataproc_cluster"; operator := create_op;
            upstream_task_ids := ∅; downstream_task_ids := {[run_id]} |}.
Proof.
  intros H. unfold task, chain_dag; cbn [task_dict].
  by rewrite !lookup_insert_ne, lookup_insert_eq by done.
Qed.

Lemma chain_dag_run name default_args create_op run_id run_op delete_op :
  run_id ≠ "delete_dataproc_cluster" →
  task (chain_dag name default_args create_op run_id run_op delete_op) run_id
  = Some {| task_id := run_id; operator := run_op;
            upstream_task_ids := {["create_dataproc_cluster"]};
            downstream_task_ids := {["delete_dataproc_cluster"]} |}.
Proof.
  intros H. unfold task, chain_dag; cbn [task_dict].
  by rewrite lookup_insert_ne, lookup_insert_eq by done.
Qed.

Lemma chain_dag_delete name default_args create_op run_id run_op delete_op :
  task (chain_dag name default_args create_op run_id run_op delete_op)
    "delete_dataproc_cluster"
  = Some {| task_id := "delete_dataproc_cluster"; operator := delete_op;
            upstream_task_ids := {[run_id]}; downstream_task_ids := ∅ |}.
Proof. unfold task, chain_dag; cbn [task_dict]. by rewrite lookup_insert_eq. Qed.

Lemma chain_dag_three_chain name default_args create_op run_id run_op delete_op :
  run_id ≠ "create_dataproc_cluster" →
  run_id ≠ "delete_dataproc_cluster" →
  three_chain (chain_dag name default_args create_op run_id run_op delete_op) run_id.
Proof.
  intros H1 H2. unfold three_chain, predecessors, successors.
  rewrite chain_dag_create, chain_dag_run, chain_dag_delete by done.
  unfold chain_dag; cbn [task_dict].
  split; [|split; [|done]].
  - rewrite !dom_insert_L, dom_empty_L. apply set_eq; intros x.
    rewrite !elem_of_union, !elem_of_singleton, elem_of_empty. tauto.
  - rewrite !map_size_insert_None, map_size_empty;
      rewrite ?lookup_insert_ne, ?lookup_empty; done.
Qed.

Lemma import_module_run : import_module empty_world = (inr module_defaults, module_world).
Proof. reflexivity. Qed.

Lemma lookup_past (h objs : list PyObj) k :
  (h ++ objs)%list !! (k + length h) = objs !! k.
Proof. rewrite lookup_app_r by lia. f_equal. lia. Qed.

(** Evaluations on the inputs above. *)
Example join_examples :
  Py.join " " ["a"; "b"; "c"] = "a b c" ∧ Py.join " " ["a"] = "a" ∧ Py.join " " [] = "".
Proof. by repeat split. Qed.

Example format_items_example :
  format_items [("date", "20200101"); ("bucket", "telemetry")]
  = "date=20200101 bucket=telemetry".
Proof. reflexivity. Qed.

Example dict_set_examples :
  dict_set "a" "3" [("a", "1"); ("b", "2")] = [("a", "3"); ("b", "2")]
  ∧ dict_set "c" "3" [("a", "1"); ("b", "2")] = [("a", "1"); ("b", "2"); ("c", "3")].
Proof. by split; vm_compute. Qed.

Example format_envvar_on_a_list :
  fst (_format_envvar (Some 5) caller_world) = inr ""
  ∧ fst (_format_envvar (Some 6) caller_world) = inl (AttributeError "items").
Proof. by split. Qed.

Example pyspark_build_example :
  build answering_hooks
    (PysparkJob (named (pyspark_defaults module_defaults) "J" "c")
       (Some "gs://b/main.py") (Some 6))
    caller_world
  = (inr (pyspark_dag (named (pyspark_defaults module_defaults) "J" "c") "c"
            "gs://b/main.py" (Some 6) {| project_id := Some "moz-fx-data" |} 10),
     {| heap := heap caller_world
                ++ [PyDict [];
                    PyList ["gs://moz-fx-data-prod-airflow-dataproc-artifacts/bootstrap/dataproc_init.sh"];
                    PyDict [("gcs-connector-version", "1.9.16");
                            ("bigquery-connector-version", "0.13.6")]];
        context_dag := None;
        calls := [GcpConnectionLookup "google_cloud_airflow_dataproc"] |}).
Proof. vm_compute. reflexivity. Qed.

Example failing_gcp_hook_example :
  build {| gcp_connection := λ _, inl (HookError "The conn_id isn't defined");
           aws_credentials := aws_credentials answering_hooks |}
    (PysparkJob (named (pyspark_defaults module_defaults) "J" "c")
       (Some "gs://b/main.py") None)
    caller_world
  = (inl (HookError "The conn_id isn't defined"),
     {| heap := heap caller_world;
        context_dag := None;
        calls := [GcpConnectionLookup "google_cloud_airflow_dataproc"] |}).
Proof. vm_compute. reflexivity. Qed.

Section Claims.

Context (hooks : Hooks).

Lemma script_run_arguments kw job name hook w objs args :
  run_arguments (heap w ++ PyList args :: objs)
    (script_dag kw job name hook (length (heap w))) "run_script_on_dataproc"
  = Some args.
Proof.
  unfold run_arguments, script_dag. rewrite chain_dag_run by done.
  cbn [operator sp_arguments]. unfold list_at.
  by rewrite (lookup_past (heap w) _ 0).
Qed.


(** C2: whichever builder it is, a DAG that is returned holds exactly the
    three tasks create, run and delete; run has create as its only
    predecessor and delete has run as its only predecessor. *)
Theorem workflow_is_three_chain i w d w' :
  build hooks i w = (inr d, w') →
  three_chain d (run_task_id i).
Proof.
  destruct i as [kw code py_args|kw jar_urls main_class jar_args|kw uri env arguments];
    cbn [build run_task_id]; intros Hrun.
  - destruct (pyspark_inv _ _ _ _ _ _ _ Hrun) as (name & main & hook & props & Hn & Hc & Hg & Hp).
    erewrite pyspark_run in Hrun by done. injection Hrun as <- _.
    by apply chain_dag_three_chain.
  - destruct (jar_inv _ _ _ _ _ _ _ _ Hrun)
      as (name & jars & main & hook & props & Hn & Hj & Hm & Hg & Hp).
    erewrite jar_run in Hrun by done. injection Hrun as <- _.
    by apply chain_dag_three_chain.
  - destruct (script_inv _ _ _ _ _ _ _ _ Hrun)
      as (job & script & name & hook & items & props & Hj & Hu & Hn & Hg & He & Hp).
    erewrite script_run in Hrun by done. injection Hrun as <- _.
    by apply chain_dag_three_chain.
Qed.

(** C3: a builder called without one of its required fields raises its
    AirflowException at once: no hook has been called, nothing has been
    allocated or registered, and no DAG is returned. *)
Theorem missing_required_field_raises i w :
  omits_required i = true →
  build hooks i w = (inl (configuration_error i), w).
Proof.
  destruct i as [kw code py_args|kw jar_urls main_class jar_args|kw uri env arguments];
    cbn [build omits_required configuration_error].
  - unfold moz_dataproc_pyspark_runner.
    by destruct (cluster_name (cluster kw)), code.
  - unfold moz_dataproc_jar_runner.
    by destruct (cluster_name (cluster kw)), jar_urls, main_class.
  - unfold moz_dataproc_scriptrunner.
    by destruct (job_name kw), uri, (cluster_name (cluster kw)).
Qed.

(** C6: the run task of [moz_dataproc_scriptrunner] never gets its jar from
    [uri]: its jar list is always the one jar
    gs://<artifact_bucket>/bin/script-runner.jar, its main class is always
    com.amazon.elasticmapreduce.scriptrunner.ScriptRunner, and its first
    argument is always gs://<artifact_bucket>/bootstrap/airflow_gcp.sh. *)
Theorem scriptrunner_submits_fixed_jar kw uri env arguments w d w' :
  moz_dataproc_scriptrunner hooks kw uri env arguments w = (inr d, w') →
  ∃ t spark rest,
    task d "run_script_on_dataproc" = Some t
    ∧ operator t = DataProcSparkOperator spark
    ∧ list_at (heap w') (sp_dataproc_spark_jars spark)
      = Some ["gs://" +:+ artifact_bucket (cluster kw) +:+ "/bin/script-runner.jar"]
    ∧ sp_main_class spark = "com.amazon.elasticmapreduce.scriptrunner.ScriptRunner"
    ∧ run_arguments (heap w') d "run_script_on_dataproc"
      = Some (("gs://" +:+ artifact_bucket (cluster kw) +:+ "/bootstrap/airflow_gcp.sh")
              :: rest)
    ∧ (∀ script,
         uri = Some script →
         script ≠ "gs://" +:+ artifact_bucket (cluster kw) +:+ "/bin/script-runner.jar" →
         list_at (heap w') (sp_dataproc_spark_jars spark) ≠ Some [script]).
Proof.
  intros Hrun.
  destruct (script_inv _ _ _ _ _ _ _ _ Hrun)
    as (job & script & name & hook & items & props & Hj & Hu & Hn & Hg & He & Hp).
  erewrite script_run in Hrun by done. injection Hrun as <- <-. cbn [heap].
  assert (list_at
            (heap w ++ PyList (script_args (artifact_bucket (cluster kw)) job script
                                 (format_items items) arguments)
               :: create_objects (helper_of kw hook) props
               ++ [PyList ["gs://" +:+ artifact_bucket (cluster kw)
                           +:+ "/bin/script-runner.jar"]])%list
            (S (S (S (S (length (heap w))))))
          = Some ["gs://" +:+ artifact_bucket (cluster kw) +:+ "/bin/script-runner.jar"])
    as Hjars.
  { unfold list_at. by rewrite (lookup_past (heap w) _ 4). }
  eexists _, _, _. split; [by apply chain_dag_run|]. cbn [operator].
  split; [done|]. cbn [sp_dataproc_spark_jars sp_main_class].
  split; [done|]. split; [done|]. split.
  - rewrite script_run_arguments. unfold script_args. by cbn [app].
  - intros script' _ Hne Heq. apply Hne.
    assert (Some ["gs://" +:+ artifact_bucket (cluster kw) +:+ "/bin/script-runner.jar"]
            = Some [script']) as Hs by (etransitivity; [symmetry; exact Hjars|exact Heq]).
    congruence.
Qed.

(** C10: [arguments=""] is [arguments=None] to [moz_dataproc_scriptrunner]:
    the two calls are the same computation, and the argument list of the run
    task ends with the environment, with no [--arguments] flag after it. *)
Theorem scriptrunner_empty_arguments_is_none kw uri env w :
  moz_dataproc_scriptrunner hooks kw uri env (Some "") w
  = moz_dataproc_scriptrunner hooks kw uri env None w
  ∧ ∀ d w',
      moz_dataproc_scriptrunner hooks kw uri env (Some "") w = (inr d, w') →
      ∃ job script items,
        job_name kw = Some job ∧ uri = Some script
        ∧ env_items (heap w) env = Some items
        ∧ run_arguments (heap w') d "run_script_on_dataproc"
          = Some ["gs://" +:+ artifact_bucket (cluster kw) +:+ "/bootstrap/airflow_gcp.sh";
                  "--job-name"; job; "--uri"; script;
                  "--environment"; format_items items].
Proof.
  split; [reflexivity|]. intros d w' Hrun.
  destruct (script_inv _ _ _ _ _ _ _ _ Hrun)
    as (job & script & name & hook & items & props & Hj & Hu & Hn & Hg & He & Hp).
  erewrite script_run in Hrun by done. injection Hrun as <- <-. cbn [heap].
  exists job, script, items. by rewrite script_run_arguments.
Qed.

Lemma append_assoc (s1 s2 s3 : string) : (s1 +:+ s2) +:+ s3 = s1 +:+ s2 +:+ s3.
Proof.
  induction s1 as [|c s1 IH]; [done|].
  change (String c ((s1 +:+ s2) +:+ s3) = String c (s1 +:+ s2 +:+ s3)).
  by rewrite IH.
Qed.

Lemma join_cons sep p q rest :
  Py.join sep (p :: q :: rest) = p +:+ sep +:+ Py.join sep (q :: rest).
Proof. reflexivity. Qed.

Lemma flatten_cons k v e rest :
  flatten ((k, v) :: e :: rest) = k +:+ "=" +:+ v +:+ " " +:+ flatten (e :: rest).
Proof. reflexivity. Qed.

Lemma flatten_format_items entries : format_items entries = flatten entries.
Proof.
  unfold format_items. induction entries as [|[k v] [|e rest] IH]; [done..|].
  rewrite flatten_cons, <- IH. cbn [map fst snd]. rewrite join_cons.
  by rewrite !append_assoc.
Qed.

(** C5: [_format_envvar] is a function of the ordered entries of the mapping
    and changes nothing: every entry becomes key=value, joined by single
    spaces in iteration order; {"date": "20200101"} gives "date=20200101"
    and the empty mapping gives the empty string. *)
Theorem format_envvar_flattens env entries w :
  dict_at (heap w) env = Some entries →
  _format_envvar (Some env) w = (inr (flatten entries), w)
  ∧ (entries = [("date", "20200101")] →
     _format_envvar (Some env) w = (inr "date=20200101", w))
  ∧ (entries = [] → _format_envvar (Some env) w = (inr "", w)).
Proof.
  intros He.
  assert (_format_envvar (Some env) w = (inr (flatten entries), w)) as Hrun.
  { rewrite <- flatten_format_items. apply format_envvar_run.
    unfold dict_at in He. unfold env_items.
    by destruct (heap w !! env) as [[|]|]; simplify_eq. }
  split; [done|]. split; intros ->; exact Hrun.
Qed.





End Claims.


Lemma workflow_is_three_chain_witness :
  three_chain
    (script_dag (named (script_defaults module_defaults) "J" "c") "J" "c"
       {| project_id := Some "moz-fx-data" |} 10)
    "run_script_on_dataproc".
Proof.
  apply (workflow_is_three_chain answering_hooks
           (ScriptJob (named (script_defaults module_defaults) "J" "c")
              (Some "gs://b/s.py") (Some 4) (Some "-d 1"))
           caller_world _
           {| heap := heap caller_world
                      ++ [PyList ["gs://moz-fx-data-prod-airflow-dataproc-artifacts/bootstrap/airflow_gcp.sh";
                                  "--job-name"; "J"; "--uri"; "gs://b/s.py";
                                  "--environment"; "k=v"; "--arguments"; "-d 1"];
                          PyDict [];
                          PyList ["gs://moz-fx-data-prod-airflow-dataproc-artifacts/bootstrap/dataproc_init.sh"];
                          PyDict [("gcs-connector-version", "1.9.16");
                                  ("bigquery-connector-version", "0.13.6")];
                          PyList ["gs://moz-fx-data-prod-airflow-dataproc-artifacts/bin/script-runner.jar"]];
              context_dag := None;
              calls := [GcpConnectionLookup "google_cloud_airflow_dataproc"] |}).
  vm_compute. reflexivity.
Defined.

Lemma missing_required_field_raises_witness :
  build answering_hooks
    (JarJob (named (jar_defaults module_defaults) "J" "c") None (Some "com.mozilla.Main") None)
    caller_world
  = (inl (AirflowException "Please specify cluster_name, jar_urls, and/or main_class."),
     caller_world).
Proof.
  apply (missing_required_field_raises answering_hooks
           (JarJob (named (jar_defaults module_defaults) "J" "c") None
              (Some "com.mozilla.Main") None)
           caller_world).
  reflexivity.
Defined.

Lemma scriptrunner_submits_fixed_jar_witness :
  ∃ t spark rest,
    task (script_dag (named (script_defaults module_defaults) "J" "c") "J" "c"
            {| project_id := Some "moz-fx-data" |} 10) "run_script_on_dataproc" = Some t
    ∧ operator t = DataProcSparkOperator spark
    ∧ list_at (heap (script_world_after
                       ["gs://moz-fx-data-prod-airflow-dataproc-artifacts/bootstrap/airflow_gcp.sh";
                        "--job-name"; "J"; "--uri"; "gs://b/s.py"; "--environment"; "k=v"]))
        (sp_dataproc_spark_jars spark)
      = Some ["gs://moz-fx-data-prod-airflow-dataproc-artifacts/bin/script-runner.jar"]
    ∧ sp_main_class spark = "com.amazon.elasticmapreduce.scriptrunner.ScriptRunner"
    ∧ run_arguments
        (heap (script_world_after
                 ["gs://moz-fx-data-prod-airflow-dataproc-artifacts/bootstrap/airflow_gcp.sh";
                  "--job-name"; "J"; "--uri"; "gs://b/s.py"; "--environment"; "k=v"]))
        (script_dag (named (script_defaults module_defaults) "J" "c") "J" "c"
           {| project_id := Some "moz-fx-data" |} 10) "run_script_on_dataproc"
      = Some ("gs://moz-fx-data-prod-airflow-dataproc-artifacts/bootstrap/airflow_gcp.sh"
              :: rest)
    ∧ (∀ script,
         Some "gs://b/s.py" = Some script →
         script ≠ "gs://moz-fx-data-prod-airflow-dataproc-artifacts/bin/script-runner.jar" →
         list_at (heap (script_world_after
                          ["gs://moz-fx-data-prod-airflow-dataproc-artifacts/bootstrap/airflow_gcp.sh";
                           "--job-name"; "J"; "--uri"; "gs://b/s.py"; "--environment"; "k=v"]))
           (sp_dataproc_spark_jars spark) ≠ Some [script]).
Proof.
  apply (scriptrunner_submits_fixed_jar answering_hooks
           (named (script_defaults module_defaults) "J" "c")
           (Some "gs://b/s.py") (Some 4) None caller_world).
  vm_compute. reflexivity.
Defined.

Lemma scriptrunner_empty_arguments_is_none_witness :
  ∃ job script items,
    Some "J" = Some job ∧ Some "gs://b/s.py" = Some script
    ∧ env_items (heap caller_world) (Some 4) = Some items
    ∧ run_arguments
        (heap (script_world_after
                 ["gs://moz-fx-data-prod-airflow-dataproc-artifacts/bootstrap/airflow_gcp.sh";
                  "--job-name"; "J"; "--uri"; "gs://b/s.py"; "--environment"; "k=v"]))
        (script_dag (named (script_defaults module_defaults) "J" "c") "J" "c"
           {| project_id := Some "moz-fx-data" |} 10) "run_script_on_dataproc"
      = Some ["gs://moz-fx-data-prod-airflow-dataproc-artifacts/bootstrap/airflow_gcp.sh";
              "--job-name"; job; "--uri"; script; "--environment"; format_items items].
Proof.
  apply (proj2 (scriptrunner_empty_arguments_is_none answering_hooks
                  (named (script_defaults module_defaults) "J" "c")
                  (Some "gs://b/s.py") (Some 4) caller_world)).
  vm_compute. reflexivity.
Defined.

Lemma format_envvar_flattens_witness :
  _format_envvar (Some 8) caller_world = (inr "date=20200101", caller_world)
  ∧ _format_envvar (Some 9) caller_world = (inr "", caller_world).
Proof.
  split.
  - destruct (format_envvar_flattens 8 [("date", "20200101")] caller_world eq_refl)
      as (_ & Hdate & _).
    exact (Hdate eq_refl).
  - destruct (format_envvar_flattens 9 [] caller_world eq_refl) as (_ & _ & Hempty).
    exact (Hempty eq_refl).
Defined.






















Section Ownership.

Context (hooks : Hooks).


End Ownership.


(** ** Every way a build can end *)

Section Outcomes.

Context (hooks : Hooks).

Lemma pyspark_gcp_err kw code py_args w name main e :
  cluster_name (cluster kw) = Some name →
  code = Some main →
  gcp_connection hooks (gcp_conn_id (cluster kw)) = inl e →
  moz_dataproc_pyspark_runner hooks kw code py_args w
  = (inl e, log_call (GcpConnectionLookup (gcp_conn_id (cluster kw))) w).
Proof.
  intros Hn -> Hg. unfold moz_dataproc_pyspark_runner. rewrite Hn.
  by erewrite bind_err by (by apply helper_init_err).
Qed.

Lemma pyspark_aws_err kw code py_args w name main hook e :
  cluster_name (cluster kw) = Some name →
  code = Some main →
  gcp_connection hooks (gcp_conn_id (cluster kw)) = inr hook →
  aws_properties hooks (cluster kw) = inl e →
  moz_dataproc_pyspark_runner hooks kw code py_args w
  = (inl e, {| heap := heap w ++ [PyDict []];
               context_dag := context_dag w;
               calls := calls w ++ build_calls kw |}).
Proof.
  intros Hn -> Hg Hp. destruct w as [h ctx cs].
  unfold moz_dataproc_pyspark_runner. rewrite Hn.
  erewrite bind_ok by (by apply helper_init_ok).
  erewrite with_DAG_run; [|by erewrite bind_err by (by apply create_cluster_err)].
  unfold set_context_dag, log_call, build_calls; cbn [heap context_dag calls self].
  by rewrite <- app_assoc.
Qed.

Lemma jar_gcp_err kw jar_urls main_class jar_args w name jars main e :
  cluster_name (cluster kw) = Some name →
  jar_urls = Some jars →
  main_class = Some main →
  gcp_connection hooks (gcp_conn_id (cluster kw)) = inl e →
  moz_dataproc_jar_runner hooks kw jar_urls main_class jar_args w
  = (inl e, log_call (GcpConnectionLookup (gcp_conn_id (cluster kw))) w).
Proof.
  intros Hn -> -> Hg. unfold moz_dataproc_jar_runner. rewrite Hn.
  by erewrite bind_err by (by apply helper_init_err).
Qed.

Lemma jar_aws_err kw jar_urls main_class jar_args w name jars main hook e :
  cluster_name (cluster kw) = Some name →
  jar_urls = Some jars →
  main_class = Some main →
  gcp_connection hooks (gcp_conn_id (cluster kw)) = inr hook →
  aws_properties hooks (cluster kw) = inl e →
  moz_dataproc_jar_runner hooks kw jar_urls main_class jar_args w
  = (inl e, {| heap := heap w ++ [PyDict []];
               context_dag := context_dag w;
               calls := calls w ++ build_calls kw |}).
Proof.
  intros Hn -> -> Hg Hp. destruct w as [h ctx cs].
  unfold moz_dataproc_jar_runner. rewrite Hn.
  erewrite bind_ok by (by apply helper_init_ok).
  erewrite with_DAG_run; [|by erewrite bind_err by (by apply create_cluster_err)].
  unfold set_context_dag, log_call, build_calls; cbn [heap context_dag calls self].
  by rewrite <- app_assoc.
Qed.

Lemma script_gcp_err kw uri env arguments w job script name e :
  job_name kw = Some job →
  uri = Some script →
  cluster_name (cluster kw) = Some name →
  gcp_connection hooks (gcp_conn_id (cluster kw)) = inl e →
  moz_dataproc_scriptrunner hooks kw uri env arguments w
  = (inl e, log_call (GcpConnectionLookup (gcp_conn_id (cluster kw))) w).
Proof.
  intros Hj -> Hn Hg. unfold moz_dataproc_scriptrunner. rewrite Hj, Hn.
  by erewrite bind_err by (by apply helper_init_err).
Qed.

Lemma script_env_err kw uri env arguments w job script name hook :
  job_name kw = Some job →
  uri = Some script →
  cluster_name (cluster kw) = Some name →
  gcp_connection hooks (gcp_conn_id (cluster kw)) = inr hook →
  env_items (heap w) env = None →
  moz_dataproc_scriptrunner hooks kw uri env arguments w
  = (inl (AttributeError "items"),
     log_call (GcpConnectionLookup (gcp_conn_id (cluster kw))) w).
Proof.
  intros Hj -> Hn Hg He. unfold moz_dataproc_scriptrunner. rewrite Hj, Hn.
  erewrite bind_ok by (by apply helper_init_ok).
  by erewrite bind_err by (by apply format_envvar_err).
Qed.

Lemma script_aws_err kw uri env arguments w job script name hook items e :
  job_name kw = Some job →
  uri = Some script →
  cluster_name (cluster kw) = Some name →
  gcp_connection hooks (gcp_conn_id (cluster kw)) = inr hook →
  env_items (heap w) env = Some items →
  aws_properties hooks (cluster kw) = inl e →
  moz_dataproc_scriptrunner hooks kw uri env arguments w
  = (inl e,
     {| heap := heap w
                ++ [PyList (script_args (artifact_bucket (cluster kw)) job script
                              (format_items items) arguments);
                    PyDict []];
        context_dag := context_dag w;
        calls := calls w ++ build_calls kw |}).
Proof.
  intros Hj -> Hn Hg He Hp. destruct w as [h ctx cs].
  unfold moz_dataproc_scriptrunner. rewrite Hj, Hn.
  erewrite bind_ok by (by apply helper_init_ok).
  erewrite bind_ok by (by apply format_envvar_run).
  rewrite script_args_run.
  erewrite with_DAG_run; [|by erewrite bind_err by (by apply create_cluster_err)].
  unfold set_context_dag, set_heap, log_call, build_calls, script_args;
    cbn [heap context_dag calls self].
  by rewrite <- !app_assoc.
Qed.

(** Every call of a builder ends in one of the five ways of [outcome]. *)
Lemma build_outcome i w :
  outcome hooks i w (fst (build hooks i w)) (snd (build hooks i w)).
Proof.
  destruct (omits_required i) eqn:Hreq.
  { replace (build hooks i w) with (inl (B := DAG) (configuration_error i), w).
    - by apply outcome_configuration.
    - destruct i as [kw code py_args|kw jar_urls main_class jar_args|kw uri env arguments];
        cbn [build omits_required configuration_error] in *.
      + unfold moz_dataproc_pyspark_runner.
        by destruct (cluster_name (cluster kw)), code.
      + unfold moz_dataproc_jar_runner.
        by destruct (cluster_name (cluster kw)), jar_urls, main_class.
      + unfold moz_dataproc_scriptrunner.
        by destruct (job_name kw), uri, (cluster_name (cluster kw)). }
  destruct (gcp_connection hooks (gcp_conn_id (cluster (kwargs_of i)))) as [e|hook] eqn:Hg.
  { replace (build hooks i w) with (inl (B := DAG) e, log_call (gcp_call i) w).
    - by apply outcome_gcp.
    - destruct i as [kw code py_args|kw jar_urls main_class jar_args|kw uri env arguments];
        cbn [build omits_required kwargs_of gcp_call] in *.
      + destruct (cluster_name (cluster kw)) eqn:?, code; try done.
        symmetry. by eapply pyspark_gcp_err.
      + destruct (cluster_name (cluster kw)) eqn:?, jar_urls, main_class; try done.
        symmetry. by eapply jar_gcp_err.
      + destruct (job_name kw) eqn:?, uri, (cluster_name (cluster kw)) eqn:?; try done.
        symmetry. by eapply script_gcp_err. }
  destruct (env_items (heap w) (invocation_env i)) as [items|] eqn:He.
  2:{ replace (build hooks i w)
        with (inl (B := DAG) (AttributeError "items"), log_call (gcp_call i) w).
      - by eapply outcome_env.
      - destruct i as [kw code py_args|kw jar_urls main_class jar_args|kw uri env arguments];
          cbn [build omits_required kwargs_of gcp_call invocation_env env_items] in *;
          try done.
        destruct (job_name kw) eqn:?, uri, (cluster_name (cluster kw)) eqn:?; try done.
        symmetry. by eapply script_env_err. }
  destruct (aws_properties hooks (cluster (kwargs_of i))) as [e|props] eqn:Hp.
  - destruct i as [kw code py_args|kw jar_urls main_class jar_args|kw uri env arguments];
      cbn [build omits_required kwargs_of gcp_call invocation_env] in *.
    + destruct (cluster_name (cluster kw)) eqn:Hn, code; try done.
      erewrite pyspark_aws_err by done. cbn [fst snd].
      eapply (outcome_aws _ (PysparkJob _ _ _));
        cbn [omits_required kwargs_of invocation_env]; rewrite ?Hn; try done;
        cbn [length create_objects app]; lia.
    + destruct (cluster_name (cluster kw)) eqn:Hn, jar_urls, main_class; try done.
      erewrite jar_aws_err by done. cbn [fst snd].
      eapply (outcome_aws _ (JarJob _ _ _ _));
        cbn [omits_required kwargs_of invocation_env]; rewrite ?Hn; try done;
        cbn [length create_objects app]; lia.
    + destruct (job_name kw) eqn:Hj, uri, (cluster_name (cluster kw)) eqn:Hn; try done.
      erewrite script_aws_err by done. cbn [fst snd].
      eapply (outcome_aws _ (ScriptJob _ _ _ _));
        cbn [omits_required kwargs_of invocation_env]; rewrite ?Hn, ?Hj; try done;
        cbn [length create_objects app]; lia.
  - destruct i as [kw code py_args|kw jar_urls main_class jar_args|kw uri env arguments];
      cbn [build omits_required kwargs_of gcp_call invocation_env] in *.
    + destruct (cluster_name (cluster kw)) eqn:Hn, code; try done.
      erewrite pyspark_run by done. cbn [fst snd].
      eapply (outcome_dag _ (PysparkJob _ _ _));
        cbn [omits_required kwargs_of invocation_env]; rewrite ?Hn; try done;
        cbn [length create_objects app]; lia.
    + destruct (cluster_name (cluster kw)) eqn:Hn, jar_urls, main_class; try done.
      erewrite jar_run by done. cbn [fst snd].
      eapply (outcome_dag _ (JarJob _ _ _ _));
        cbn [omits_required kwargs_of invocation_env]; rewrite ?Hn; try done;
        cbn [length create_objects app]; lia.
    + destruct (job_name kw) eqn:Hj, uri, (cluster_name (cluster kw)) eqn:Hn; try done.
      erewrite script_run by done. cbn [fst snd].
      eapply (outcome_dag _ (ScriptJob _ _ _ _));
        cbn [omits_required kwargs_of invocation_env]; rewrite ?Hn, ?Hj; try done;
        cbn [length create_objects app]; lia.
Qed.

End Outcomes.



Lemma chain_dag_tasks name default_args create_op run_id run_op delete_op tid t :
  task (chain_dag name default_args create_op run_id run_op delete_op) tid = Some t →
  operator t = create_op ∨ operator t = run_op ∨ operator t = delete_op.
Proof.
  unfold task, chain_dag; cbn [task_dict]. intros Ht.
  repeat (apply lookup_insert_Some in Ht as [[_ <-]|[_ Ht]]; [cbn [operator]; tauto|]).
  by rewrite lookup_empty in Ht.
Qed.

(** The shape of what a builder returns: the chain around a create operator
    whose three objects lie together in the store. *)
Lemma build_shape hooks i w d w' :
  build hooks i w = (inr d, w') →
  ∃ hook props name run_op pre post,
    gcp_connection hooks (gcp_conn_id (cluster (kwargs_of i))) = inr hook
    ∧ cluster_name (cluster (kwargs_of i)) = Some name
    ∧ d = chain_dag (dag_name_of (kwargs_of i)) (default_args (kwargs_of i))
            (create_operator (helper_of (kwargs_of i) hook) (length pre))
            (run_task_id i) run_op (delete_operator (helper_of (kwargs_of i) hook))
    ∧ heap w' = (pre ++ create_objects (helper_of (kwargs_of i) hook) props ++ post)%list
    ∧ operator_cluster_name run_op = Some name
    ∧ operator_gcp_conn_id run_op = gcp_conn_id (cluster (kwargs_of i)).
Proof.
  destruct i as [kw code py_args|kw jar_urls main_class jar_args|kw uri env arguments];
    cbn [build kwargs_of run_task_id]; intros Hrun.
  - destruct (pyspark_inv _ _ _ _ _ _ _ Hrun)
      as (name & main & hook & props & Hn & Hc & Hg & Hp).
    erewrite pyspark_run in Hrun by done. injection Hrun as <- <-.
    exists hook, props, name. eexists _, (heap w), [].
    repeat split; try done; cbn [heap]; by rewrite app_nil_r.
  - destruct (jar_inv _ _ _ _ _ _ _ _ Hrun)
      as (name & jars & main & hook & props & Hn & Hj & Hm & Hg & Hp).
    erewrite jar_run in Hrun by done. injection Hrun as <- <-.
    exists hook, props, name. eexists _, (heap w), [].
    repeat split; try done; cbn [heap]; by rewrite app_nil_r.
  - destruct (script_inv _ _ _ _ _ _ _ _ Hrun)
      as (job & script & name & hook & items & props & Hj & Hu & Hn & Hg & He & Hp).
    erewrite script_run in Hrun by done. injection Hrun as <- <-.
    exists hook, props, name.
    eexists _, (heap w ++ [PyList (script_args (artifact_bucket (cluster kw)) job script
                                  (format_items items) arguments)])%list,
      [PyList ["gs://" +:+ artifact_bucket (cluster kw) +:+ "/bin/script-runner.jar"]].
    split; [done|]. split; [done|]. split.
    { unfold script_dag. rewrite length_app. cbn [length]. by rewrite Nat.add_1_r. }
    split; [|done]. cbn [heap]. by rewrite <- !app_assoc.
Qed.

Section Extras.

Context (hooks : Hooks).


(** X2: when the GCP connection lookup of [DataProcHelper.__init__] raises,
    the builder ends with that exception right after the lookup: nothing has
    been allocated, no AWS lookup is made and no task exists. *)
Theorem gcp_failure_stops_build i w e :
  omits_required i = false →
  gcp_connection hooks (gcp_conn_id (cluster (kwargs_of i))) = inl e →
  build hooks i w = (inl e, log_call (gcp_call i) w).
Proof.
  intros Hreq Hg. pose proof (build_outcome hooks i w) as Hout.
  destruct (build hooks i w) as [r w1]. cbn [fst snd] in Hout.
  inversion Hout; subst; congruence.
Qed.

(** X3: [moz_dataproc_scriptrunner] with a non-empty list as [env] raises
    AttributeError from [_format_envvar], after the GCP lookup and before
    anything is allocated or the AWS credentials are asked for. *)
Theorem scriptrunner_rejects_list_env kw uri l arguments w job script name hook x xs :
  job_name kw = Some job →
  uri = Some script →
  cluster_name (cluster kw) = Some name →
  gcp_connection hooks (gcp_conn_id (cluster kw)) = inr hook →
  heap w !! l = Some (PyList (x :: xs)) →
  moz_dataproc_scriptrunner hooks kw uri (Some l) arguments w
  = (inl (AttributeError "items"),
     log_call (GcpConnectionLookup (gcp_conn_id (cluster kw))) w).
Proof.
  intros Hj Hu Hn Hg Hl. eapply script_env_err; try done.
  unfold env_items. by rewrite Hl.
Qed.



(** X6: however it ends, a call of a builder makes no external call, or
    the GCP connection lookup alone, or that lookup followed by one AWS
    credential lookup, and this last only when [aws_conn_id] is set and not
    empty.  A call that returns a DAG has made the GCP lookup. *)
Theorem build_external_calls i w :
  ∃ cs,
    calls (snd (build hooks i w)) = (calls w ++ cs)%list
    ∧ (cs = []
       ∨ cs = [gcp_call i]
       ∨ ∃ conn, aws_conn_id (cluster (kwargs_of i)) = Some conn
                 ∧ Py.truthy_str conn = true
                 ∧ cs = [gcp_call i; AwsCredentialLookup conn])
    ∧ (∀ d, fst (build hooks i w) = inr d → cs ≠ []).
Proof.
  assert (build_calls (kwargs_of i) = [gcp_call i]
          ∨ ∃ conn, aws_conn_id (cluster (kwargs_of i)) = Some conn
                    ∧ Py.truthy_str conn = true
                    ∧ build_calls (kwargs_of i) = [gcp_call i; AwsCredentialLookup conn])
    as Hcalls.
  { unfold build_calls, aws_calls, gcp_call.
    destruct (aws_conn_id (cluster (kwargs_of i))) as [c|]; [|by left].
    destruct (Py.truthy_str c) eqn:Ht; [|by left]. right. by exists c. }
  pose proof (build_outcome hooks i w) as Hout.
  destruct (build hooks i w) as [r w1]. cbn [fst snd] in *.
  inversion Hout; subst; cbn [calls log_call].
  - exists []. rewrite app_nil_r. split; [done|]. split; [by left|done].
  - exists [gcp_call i]. split; [done|]. split; [by right; left|done].
  - exists [gcp_call i]. split; [done|]. split; [by right; left|done].
  - exists (build_calls (kwargs_of i)). split; [done|]. split; [|done].
    right. destruct Hcalls as [->|(c & ? & ? & ->)]; [by left|right; by exists c].
  - exists (build_calls (kwargs_of i)). split; [done|]. split.
    + right. destruct Hcalls as [->|(c & ? & ? & ->)]; [by left|right; by exists c].
    + intros _ _. by destruct Hcalls as [->|(c & ? & ? & ->)].
Qed.

(** X7: however it ends, a call of a builder leaves the DAG of the enclosing
    [with] block as it was: its tasks are registered in the DAG it creates
    and never in the caller's. *)
Theorem build_restores_context i w :
  context_dag (snd (build hooks i w)) = context_dag w.
Proof.
  pose proof (build_outcome hooks i w) as Hout.
  destruct (build hooks i w) as [r w1]. cbn [fst snd] in *.
  by inversion Hout; subst.
Qed.

(** X8: in every DAG a builder returns, the create, run and delete tasks are
    aimed at one cluster, the [cluster_name] given to the builder, and use
    the one [gcp_conn_id] given to it. *)
Theorem tasks_share_cluster_and_connection i w d w' :
  build hooks i w = (inr d, w') →
  ∃ name,
    cluster_name (cluster (kwargs_of i)) = Some name
    ∧ ∀ tid t,
        task d tid = Some t →
        operator_cluster_name (operator t) = Some name
        ∧ operator_gcp_conn_id (operator t) = gcp_conn_id (cluster (kwargs_of i)).
Proof.
  intros Hrun.
  destruct (build_shape _ _ _ _ _ Hrun)
    as (hook & props & name & run_op & pre & post & Hg & Hn & Hd & Hh & Hrn & Hrc).
  subst d.
  exists name. split; [done|]. intros tid t Ht.
  apply chain_dag_tasks in Ht as [Ht|[Ht|Ht]]; rewrite Ht; by cbn.
Qed.

(** X9: the DAG a builder returns is named parent_dag_name.dag_name and
    keeps the [default_args] it was given; with [parent_dag_name] left out
    the name is None.dag_name, and no exception is raised for it. *)
Theorem dag_id_is_parent_dot_child i w d w' :
  build hooks i w = (inr d, w') →
  dag_id d = Py.str (parent_dag_name (kwargs_of i)) +:+ "." +:+ dag_name (kwargs_of i)
  ∧ dag_default_args d = default_args (kwargs_of i)
  ∧ (parent_dag_name (kwargs_of i) = None →
     dag_id d = "None." +:+ dag_name (kwargs_of i)).
Proof.
  intros Hrun.
  destruct (build_shape _ _ _ _ _ Hrun)
    as (hook & props & name & run_op & pre & post & Hg & Hn & Hd & Hh & Hrn & Hrc).
  subst d.
  cbn [dag_id dag_default_args chain_dag]. unfold dag_name_of.
  split; [done|]. split; [done|]. by intros ->.
Qed.

(** X10: the create task of a returned DAG carries the cluster settings of
    the call unchanged, the project of the GCP connection, and three values
    that no argument changes: the scratch storage bucket, the two connector
    versions of the metadata and, as only init action,
    gs://<artifact_bucket>/bootstrap/dataproc_init.sh. *)
Theorem create_task_settings i w d w' :
  build hooks i w = (inr d, w') →
  ∃ t a hook,
    task d "create_dataproc_cluster" = Some t
    ∧ operator t = DataprocClusterCreateOperator a
    ∧ gcp_connection hooks (gcp_conn_id (cluster (kwargs_of i))) = inr hook
    ∧ cc_project_id a = project_id hook
    ∧ cc_num_workers a = num_workers (cluster (kwargs_of i))
    ∧ cc_num_preemptible_workers a = num_preemptible_workers (cluster (kwargs_of i))
    ∧ cc_image_version a = image_version (cluster (kwargs_of i))
    ∧ cc_zone a = zone (cluster (kwargs_of i))
    ∧ cc_idle_delete_ttl a = idle_delete_ttl (cluster (kwargs_of i))
    ∧ cc_auto_delete_ttl a = auto_delete_ttl (cluster (kwargs_of i))
    ∧ cc_master_machine_type a = master_machine_type (cluster (kwargs_of i))
    ∧ cc_worker_machine_type a = worker_machine_type (cluster (kwargs_of i))
    ∧ cc_service_account a = service_account (cluster (kwargs_of i))
    ∧ cc_install_component_gateway a = install_component_gateway (cluster (kwargs_of i))
    ∧ cc_optional_components a = optional_components (cluster (kwargs_of i))
    ∧ cc_storage_bucket a = "moz-fx-data-prod-dataproc-scratch"
    ∧ dict_at (heap w') (cc_metadata a)
      = Some [("gcs-connector-version", "1.9.16"); ("bigquery-connector-version", "0.13.6")]
    ∧ list_at (heap w') (cc_init_actions_uris a)
      = Some ["gs://" +:+ artifact_bucket (cluster (kwargs_of i))
              +:+ "/bootstrap/dataproc_init.sh"].
Proof.
  intros Hrun.
  destruct (build_shape _ _ _ _ _ Hrun)
    as (hook & props & name & run_op & pre & post & Hg & Hn & Hd & Hh & Hrn & Hrc).
  subst d.
  eexists _, _, hook. split.
  { apply chain_dag_create. by destruct i. }
  cbn [operator create_operator]. split; [done|].
  cbn [cc_project_id cc_num_workers cc_num_preemptible_workers cc_image_version cc_zone
         cc_idle_delete_ttl cc_auto_delete_ttl cc_master_machine_type
         cc_worker_machine_type cc_service_account cc_install_component_gateway
         cc_optional_components cc_storage_bucket cc_metadata cc_init_actions_uris
         helper_of self connection].
  repeat (split; [done|]). unfold dict_at, list_at. rewrite Hh.
  by rewrite (lookup_past pre _ 2), (lookup_past pre _ 1).
Qed.

(** X11: flattening two non-empty environments one after the other gives
    the two flattenings joined by one space. *)
Theorem format_items_app (l1 l2 : list (string * string)) :
  l1 ≠ [] → l2 ≠ [] →
  format_items (l1 ++ l2) = format_items l1 +:+ " " +:+ format_items l2.
Proof.
  intros H1 H2. destruct l2 as [|e2 r2]; [done|]. clear H2.
  induction l1 as [|e [|e' r1] IH]; [done| |].
  - unfold format_items. cbn [app map]. by rewrite join_cons.
  - unfold format_items in *. cbn [app map] in *.
    rewrite join_cons, IH by done. rewrite join_cons. by rewrite !append_assoc.
Qed.

(** X12: [_format_envvar] quotes nothing.  An entry whose value contains a
    space, a further key and an equals sign flattens to the same string as
    two entries do, so the flattened string does not determine the
    mapping. *)
Theorem format_items_merges_entries k v k' v' (rest : list (string * string)) :
  format_items ((k, v +:+ " " +:+ k' +:+ "=" +:+ v') :: rest)
  = format_items ((k, v) :: (k', v') :: rest)
  ∧ (k, v +:+ " " +:+ k' +:+ "=" +:+ v') :: rest ≠ (k, v) :: (k', v') :: rest.
Proof.
  split.
  - unfold format_items. cbn [map fst snd]. destruct rest as [|e r].
    + cbn [map]. rewrite join_cons. cbn [Py.join]. by rewrite !append_assoc.
    + cbn [map]. rewrite !join_cons. by rewrite !append_assoc.
  - intros Heq. apply (f_equal length) in Heq. cbn [length] in Heq. lia.
Qed.

(** X13: the argument list of the script runner's run task always starts
    with the seven elements bootstrap script, --job-name, job, --uri, uri,
    --environment, flattened env, also when [env] is left out (then the
    seventh is the empty string); [arguments], when not empty, follows as
    one element after --arguments, never split. *)
Theorem scriptrunner_arguments_shape kw uri env arguments w d w' :
  moz_dataproc_scriptrunner hooks kw uri env arguments w = (inr d, w') →
  ∃ job script items args,
    job_name kw = Some job ∧ uri = Some script
    ∧ env_items (heap w) env = Some items
    ∧ run_arguments (heap w') d "run_script_on_dataproc" = Some args
    ∧ take 7 args
      = ["gs://" +:+ artifact_bucket (cluster kw) +:+ "/bootstrap/airflow_gcp.sh";
         "--job-name"; job; "--uri"; script; "--environment"; format_items items]
    ∧ drop 7 args
      = match arguments with
        | Some a => if Py.truthy_str a then ["--arguments"; a] else []
        | None => []
        end
    ∧ (env = None → args !! 6 = Some "").
Proof.
  intros Hrun.
  destruct (script_inv _ _ _ _ _ _ _ _ Hrun)
    as (job & script & name & hook & items & props & Hj & Hu & Hn & Hg & He & Hp).
  erewrite script_run in Hrun by done. injection Hrun as <- <-. cbn [heap].
  exists job, script, items. eexists.
  split; [done|]. split; [done|]. split; [done|].
  split; [by rewrite script_run_arguments|].
  unfold script_args. split; [done|]. split.
  - by destruct arguments as [[|c a]|].
  - intros ->. cbn [env_items] in He. by injection He as <-.
Qed.

(** X14: the run task of [moz_dataproc_pyspark_runner] is given
    [python_driver_code] as its main file, [job_name] as it is (also
    [None]: the builder does not require it) and [py_args] itself: the list
    the caller passed, with the contents it has, or [None]. *)
Theorem pyspark_run_task_payload kw code py_args w d w' :
  moz_dataproc_pyspark_runner hooks kw code py_args w = (inr d, w') →
  ∃ t a,
    task d "run_dataproc_pyspark" = Some t
    ∧ operator t = DataProcPySparkOperator a
    ∧ code = Some (ps_main a)
    ∧ ps_job_name a = job_name kw
    ∧ ps_arguments a = py_args
    ∧ (∀ l xs, py_args = Some l → list_at (heap w) l = Some xs →
               run_arguments (heap w') d "run_dataproc_pyspark" = Some xs)
    ∧ (py_args = None → run_arguments (heap w') d "run_dataproc_pyspark" = None).
Proof.
  intros Hrun.
  destruct (pyspark_inv _ _ _ _ _ _ _ Hrun)
    as (name & main & hook & props & Hn & Hc & Hg & Hp).
  erewrite pyspark_run in Hrun by done. injection Hrun as <- <-. cbn [heap].
  eexists _, _. split; [by apply chain_dag_run|]. cbn [operator].
  split; [done|]. cbn [ps_main ps_job_name ps_arguments].
  split; [done|]. split; [done|]. split; [done|].
  unfold run_arguments, pyspark_dag. rewrite chain_dag_run by done.
  cbn [operator ps_arguments]. split.
  - intros l xs -> Hl. unfold list_at in *.
    destruct (heap w !! l) as [o|] eqn:Ho; [|done].
    by rewrite (lookup_app_l_Some _ _ _ _ Ho).
  - by intros ->.
Qed.

(** X15: the run task of [moz_dataproc_jar_runner] is given [main_class],
    [job_name] as it is (also [None]), [jar_args] itself and, as its jars,
    the list [jar_urls] itself. *)
Theorem jar_run_task_payload kw jar_urls main_class jar_args w d w' :
  moz_dataproc_jar_runner hooks kw jar_urls main_class jar_args w = (inr d, w') →
  ∃ t a,
    task d "run_jar_on_dataproc" = Some t
    ∧ operator t = DataProcSparkOperator a
    ∧ main_class = Some (sp_main_class a)
    ∧ jar_urls = Some (sp_dataproc_spark_jars a)
    ∧ sp_job_name a = job_name kw
    ∧ sp_arguments a = jar_args
    ∧ (∀ l xs, jar_args = Some l → list_at (heap w) l = Some xs →
               run_arguments (heap w') d "run_jar_on_dataproc" = Some xs).
Proof.
  intros Hrun.
  destruct (jar_inv _ _ _ _ _ _ _ _ Hrun)
    as (name & jars & main & hook & props & Hn & Hj & Hm & Hg & Hp).
  erewrite jar_run in Hrun by done. injection Hrun as <- <-. cbn [heap].
  eexists _, _. split; [by apply chain_dag_run|]. cbn [operator].
  split; [done|]. cbn [sp_main_class sp_dataproc_spark_jars sp_job_name sp_arguments].
  split; [done|]. split; [done|]. split; [done|]. split; [done|].
  unfold run_arguments, jar_dag. rewrite chain_dag_run by done.
  cbn [operator sp_arguments].
  intros l xs -> Hl. unfold list_at in *.
  destruct (heap w !! l) as [o|] eqn:Ho; [|done].
  by rewrite (lookup_app_l_Some _ _ _ _ Ho).
Qed.

(** X16: [py_args] is not copied.  After [moz_dataproc_pyspark_runner] has
    returned, a change the caller makes to the list it passed is what the
    run task reads as its arguments. *)
Theorem pyspark_arguments_are_the_callers_list kw code l w d w' xs :
  moz_dataproc_pyspark_runner hooks kw code (Some l) w = (inr d, w') →
  l < length (heap w) →
  run_arguments (<[l := PyList xs]> (heap w')) d "run_dataproc_pyspark" = Some xs.
Proof.
  intros Hrun Hl.
  destruct (pyspark_inv _ _ _ _ _ _ _ Hrun)
    as (name & main & hook & props & Hn & Hc & Hg & Hp).
  erewrite pyspark_run in Hrun by done. injection Hrun as <- <-. cbn [heap].
  unfold run_arguments, pyspark_dag. rewrite chain_dag_run by done.
  cbn [operator ps_arguments]. unfold list_at.
  rewrite list_lookup_insert_eq; [done|]. rewrite length_app. lia.
Qed.

End Extras.

(** ** The extras on the examples *)

Lemma gcp_failure_stops_build_witness :
  build hooks_without_gcp pyspark_example caller_world
  = (inl (AirflowException "The conn_id isn't defined"),
     log_call (gcp_call pyspark_example) caller_world).
Proof.
  apply (gcp_failure_stops_build hooks_without_gcp pyspark_example caller_world);
    reflexivity.
Defined.

Lemma scriptrunner_rejects_list_env_witness :
  moz_dataproc_scriptrunner answering_hooks
    (named (script_defaults module_defaults) "J" "c") (Some "gs://b/s.py") (Some 6) None
    caller_world
  = (inl (AttributeError "items"),
     log_call (GcpConnectionLookup "google_cloud_airflow_dataproc") caller_world).
Proof.
  apply (scriptrunner_rejects_list_env answering_hooks
           (named (script_defaults module_defaults) "J" "c") (Some "gs://b/s.py") 6 None
           caller_world "J" "gs://b/s.py" "c" example_hook "-d" ["20200101"]);
    reflexivity.
Defined.


Lemma tasks_share_cluster_and_connection_witness :
  ∃ name,
    cluster_name (cluster (kwargs_of pyspark_example)) = Some name
    ∧ ∀ tid t,
        task pyspark_example_dag tid = Some t →
        operator_cluster_name (operator t) = Some name
        ∧ operator_gcp_conn_id (operator t)
          = gcp_conn_id (cluster (kwargs_of pyspark_example)).
Proof.
  apply (tasks_share_cluster_and_connection answering_hooks pyspark_example caller_world
           pyspark_example_dag create_example_world).
  vm_compute. reflexivity.
Defined.

Lemma dag_id_is_parent_dot_child_witness :
  dag_id jar_example_dag = "main.run_script_on_dataproc"
  ∧ dag_id (jar_dag (without_parent (named (jar_defaults module_defaults) "J" "c"))
              "c" 7 "com.mozilla.Main" (Some 6) example_hook 10)
    = "None.run_script_on_dataproc".
Proof.
  split.
  - apply (dag_id_is_parent_dot_child answering_hooks jar_example caller_world
             jar_example_dag create_example_world).
    vm_compute. reflexivity.
  - apply (dag_id_is_parent_dot_child answering_hooks
             (JarJob (without_parent (named (jar_defaults module_defaults) "J" "c"))
                (Some 7) (Some "com.mozilla.Main") (Some 6))
             caller_world _ create_example_world).
    + vm_compute. reflexivity.
    + reflexivity.
Defined.

Lemma create_task_settings_witness :
  ∃ t a,
    task script_example_dag "create_dataproc_cluster" = Some t
    ∧ operator t = DataprocClusterCreateOperator a
    ∧ cc_project_id a = Some "moz-fx-data"
    ∧ cc_num_workers a = 2%Z
    ∧ cc_idle_delete_ttl a = "14400"
    ∧ cc_storage_bucket a = "moz-fx-data-prod-dataproc-scratch"
    ∧ dict_at (heap script_example_world) (cc_metadata a)
      = Some [("gcs-connector-version", "1.9.16"); ("bigquery-connector-version", "0.13.6")]
    ∧ list_at (heap script_example_world) (cc_init_actions_uris a)
      = Some ["gs://moz-fx-data-prod-airflow-dataproc-artifacts/bootstrap/dataproc_init.sh"].
Proof.
  destruct (create_task_settings answering_hooks script_example caller_world
              script_example_dag script_example_world)
    as (t & a & hook & Ht & Ha & Hg & Hp & Hw & _ & _ & _ & Hi & _ & _ & _ & _ & _ & _
        & Hs & Hm & Hu).
  { vm_compute. reflexivity. }
  exists t, a. injection Hg as <-. by repeat split.
Defined.

Lemma format_items_app_witness :
  format_items ([("date", "20200101")] ++ [("bucket", "telemetry")])
  = "date=20200101 bucket=telemetry".
Proof.
  rewrite (format_items_app [("date", "20200101")] [("bucket", "telemetry")]);
    [reflexivity|discriminate|discriminate].
Defined.

Lemma scriptrunner_arguments_shape_witness :
  ∃ job script items args,
    Some "J" = Some job ∧ Some "gs://b/s.py" = Some script
    ∧ env_items (heap caller_world) (Some 4) = Some items
    ∧ run_arguments (heap script_example_world) script_example_dag "run_script_on_dataproc"
      = Some args
    ∧ take 7 args
      = ["gs://moz-fx-data-prod-airflow-dataproc-artifacts/bootstrap/airflow_gcp.sh";
         "--job-name"; job; "--uri"; script; "--environment"; format_items items]
    ∧ drop 7 args = ["--arguments"; "-d 1"]
    ∧ (Some 4 = None → args !! 6 = Some "").
Proof.
  apply (scriptrunner_arguments_shape answering_hooks
           (named (script_defaults module_defaults) "J" "c")
           (Some "gs://b/s.py") (Some 4) (Some "-d 1") caller_world
           script_example_dag script_example_world).
  vm_compute. reflexivity.
Defined.

Lemma pyspark_run_task_payload_witness :
  ∃ t a,
    task pyspark_example_dag "run_dataproc_pyspark" = Some t
    ∧ operator t = DataProcPySparkOperator a
    ∧ Some "gs://b/main.py" = Some (ps_main a)
    ∧ ps_job_name a = Some "J"
    ∧ ps_arguments a = Some 6
    ∧ (∀ l xs, Some 6 = Some l → list_at (heap caller_world) l = Some xs →
               run_arguments (heap create_example_world) pyspark_example_dag
                 "run_dataproc_pyspark" = Some xs)
    ∧ (Some 6 = None →
       run_arguments (heap create_example_world) pyspark_example_dag
         "run_dataproc_pyspark" = None).
Proof.
  apply (pyspark_run_task_payload answering_hooks
           (named (pyspark_defaults module_defaults) "J" "c")
           (Some "gs://b/main.py") (Some 6) caller_world
           pyspark_example_dag create_example_world).
  vm_compute. reflexivity.
Defined.

Lemma jar_run_task_payload_witness :
  ∃ t a,
    task jar_example_dag "run_jar_on_dataproc" = Some t
    ∧ operator t = DataProcSparkOperator a
    ∧ Some "com.mozilla.Main" = Some (sp_main_class a)
    ∧ Some 7 = Some (sp_dataproc_spark_jars a)
    ∧ sp_job_name a = Some "J"
    ∧ sp_arguments a = Some 6
    ∧ (∀ l xs, Some 6 = Some l → list_at (heap caller_world) l = Some xs →
               run_arguments (heap create_example_world) jar_example_dag
                 "run_jar_on_dataproc" = Some xs).
Proof.
  apply (jar_run_task_payload answering_hooks
           (named (jar_defaults module_defaults) "J" "c")
           (Some 7) (Some "com.mozilla.Main") (Some 6) caller_world
           jar_example_dag create_example_world).
  vm_compute. reflexivity.
Defined.

Lemma pyspark_arguments_are_the_callers_list_witness :
  run_arguments (<[6 := PyList ["-d"; "20200102"; "--force"]]> (heap create_example_world))
    pyspark_example_dag "run_dataproc_pyspark"
  = Some ["-d"; "20200102"; "--force"].
Proof.
  apply (pyspark_arguments_are_the_callers_list answering_hooks
           (named (pyspark_defaults module_defaults) "J" "c")
           (Some "gs://b/main.py") 6 caller_world
           pyspark_example_dag create_example_world).
  - vm_compute. reflexivity.
  - cbn. lia.
Defined.

Section HelperTwice.

Context (hooks : Hooks).


End HelperTwice.

